(** * Financial statement analyzer: ratio computation and summary report

    A shallow embedding of [FinancialStatementAnalyzer] from
    [Python/DataProcessing/financial_statement_analyzer.py]:
    [calculate_financial_ratios] (lines 67-158) and
    [generate_summary_report] (lines 229-319), together with the small part
    of pandas they rely on (label based row lookup, aligned element-wise
    arithmetic on rows, row assignment with reindexing) and Python's
    fixed-point number formatting.

    Conventions of the model.
    - Cell values are IEEE 754 binary64 numbers, Rocq's primitive [float];
      integer cells of a statement are represented by the same number as a
      binary64 (exact below 2^53), which is what pandas' true division
      produces from them.
    - Row and period labels are strings.  A label lookup returns the first
      match, which is what pandas does on frames whose labels are unique
      ([Pandas.unique_labels]); the properties of the program are stated
      for such frames.
    - [print] is modelled by the list of lines written, the clock by the
      date string handed to the report, files by the list of writes.
      [Analyzer.generate_summary_report] and [Extras.plot_ratio_trends]
      are the runs in which the calls into the operating system and
      matplotlib succeed; [Extras.generate_summary_report_on] and
      [Extras.plot_ratio_trends_on] take what those calls raise as a
      parameter. *)

From Stdlib Require Import String Ascii List ZArith Bool Lia.
From Stdlib Require Import Floats.
From Stdlib Require Import Permutation.
From Stdlib Require DecimalString.
Import ListNotations.
Local Open Scope string_scope.
Local Open Scope list_scope.

(* Decimal literals such as 0.40 denote the nearest binary64 number, as
   they do in Python. *)
Set Warnings "-inexact-float".

(** ** Python values used by the program *)

Module Py.

(** The exceptions the modelled code can raise. *)
Inductive exn : Type :=
| KeyError (key : string)
| IndexError (msg : string)
| AttributeError (msg : string).

Inductive result (A : Type) : Type :=
| Ok (a : A)
| Raise (e : exn).
Arguments Ok {A} a.
Arguments Raise {A} e.

Definition bind {A B : Type} (m : result A) (k : A -> result B) : result B :=
  match m with
  | Ok a => k a
  | Raise e => Raise e
  end.

(** [str(e)].  For a [KeyError] Python shows [repr(key)]; the keys this
    program looks up are literals without quotes or escapes, for which
    [repr] is the key between single quotes. *)
Definition str_exn (e : exn) : string :=
  match e with
  | KeyError k => "'" ++ k ++ "'"
  | IndexError m => m
  | AttributeError m => m
  end.

(** Truth value of an optional string ([if previous_period:],
    [if output_path:]): [None] and the empty string are false. *)
Definition truthy (o : option string) : bool :=
  match o with
  | None => false
  | Some s => negb (String.eqb s "")
  end.

(** The line feed, and ["\n".join(lines)]. *)
Definition LF : string := String (ascii_of_nat 10) EmptyString.

Fixpoint join (sep : string) (l : list string) : string :=
  match l with
  | [] => ""
  | [s] => s
  | s :: rest => s ++ sep ++ join sep rest
  end.

End Py.

Declare Scope py_scope.
Delimit Scope py_scope with py.
Notation "x <- m ;; k" := (Py.bind m (fun x => k))
  (at level 61, m at next level, right associativity) : py_scope.

(** ** Number formatting: [format(x, '.2f')], [',.2f'] and ['.2%'] *)

Module Fmt.

Local Open Scope Z_scope.

(** Nearest integer to [num / den] ([den > 0]), ties to the even one. *)
Definition round_half_even (num den : Z) : Z :=
  let q := num / den in
  let r := num mod den in
  match (2 * r ?= den) with
  | Lt => q
  | Gt => q + 1
  | Eq => if Z.even q then q else q + 1
  end.

(** [|x| * 100] rounded to an integer, for the finite [x = m * 2^e].
    Python's fixed-point formatting rounds the exact binary value. *)
Definition hundredths (m : positive) (e : Z) : Z :=
  if 0 <=? e then Zpos m * 2 ^ e * 100
  else round_half_even (Zpos m * 100) (2 ^ (- e)).

Definition digits (n : Z) : string :=
  DecimalString.NilZero.string_of_uint (N.to_uint (Z.to_N n)).

Definition two_digits (n : Z) : string :=
  if n <? 10 then ("0" ++ digits n)%string else digits n.

(** Thousands separators, on the reversed list of digits. *)
Fixpoint group3 (rev_digits : list ascii) : list ascii :=
  match rev_digits with
  | a :: b :: c :: (_ :: _) as rest => a :: b :: c :: ","%char :: group3 rest
  | l => l
  end.

Definition with_commas (s : string) : string :=
  string_of_list_ascii (rev (group3 (rev (list_ascii_of_string s)))).

Definition sign (s : bool) : string := if s then "-"%string else ""%string.

(** [format(x, '.2f')] ([comma = false]) and [format(x, ',.2f')]. *)
Definition fixed2 (comma : bool) (x : float) : string :=
  match Prim2SF x with
  | S754_nan => "nan"
  | S754_infinity s => sign s ++ "inf"
  | S754_zero s => sign s ++ "0.00"
  | S754_finite s m e =>
      let h := hundredths m e in
      let ip := digits (h / 100) in
      (sign s ++ (if comma then with_commas ip else ip)
         ++ "." ++ two_digits (h mod 100))%string
  end.

(** [format(x, '.2%')]: the value times 100 (a binary64 product), in
    fixed-point with two places, then the percent sign. *)
Definition percent2 (x : float) : string :=
  (fixed2 false (x * 100)%float ++ "%")%string.

End Fmt.

(** ** The part of pandas the program uses *)

Module Pandas.

Import Py.
Local Open Scope py_scope.

Definition label := string.

(** A row taken out of a frame: values keyed by column label. *)
Definition Series := list (label * float).

(** A frame: ordered column labels, and rows keyed by their index label,
    each holding one value per column. *)
Record DataFrame : Type := mkFrame {
  columns : list label;
  rows : list (label * list float)
}.

Definition index (df : DataFrame) : list label := map fst (rows df).

(** Every row has one cell per column. *)
Definition well_formed (df : DataFrame) : bool :=
  forallb (fun r => Nat.eqb (length (snd r)) (length (columns df))) (rows df).

Fixpoint find_row (name : label) (rs : list (label * list float))
  : option (list float) :=
  match rs with
  | [] => None
  | (n, vs) :: rest => if String.eqb name n then Some vs else find_row name rest
  end.

(** [name in df.index] *)
Definition has_row (df : DataFrame) (name : label) : bool :=
  match find_row name (rows df) with
  | Some _ => true
  | None => false
  end.

(** [s[p]], when [p] is in the index of [s]. *)
Fixpoint series_get (s : Series) (p : label) : option float :=
  match s with
  | [] => None
  | (q, v) :: rest => if String.eqb p q then Some v else series_get rest p
  end.

(** Whether all the labels of a list differ. *)
Fixpoint distinct (l : list label) : bool :=
  match l with
  | [] => true
  | x :: rest => negb (existsb (String.eqb x) rest) && distinct rest
  end.

(** The frames the model stands for: no row label and no column label
    occurs twice.  On a repeated label pandas returns a frame or a series
    where a row or a cell is expected, and aligns position by position;
    the lookups below take the first match instead, so the properties of
    the program are stated for frames with unique labels. *)
Definition unique_labels (df : DataFrame) : bool :=
  distinct (index df) && distinct (columns df).

(** [period in df.columns] *)
Definition has_column (df : DataFrame) (period : label) : bool :=
  existsb (String.eqb period) (columns df).

(** [df.loc[name]]: the row as a series over the columns;
    [KeyError(name)] when the index has no such label.  (For a label the
    index holds once; see [unique_labels].) *)
Definition loc (df : DataFrame) (name : label) : result Series :=
  match find_row name (rows df) with
  | Some vs => Ok (combine (columns df) vs)
  | None => Raise (KeyError name)
  end.

(** [df.loc[name, period]]: one cell.  pandas fetches the column first,
    then the row in it: [KeyError(period)] when the column is missing,
    [KeyError(name)] when only the row is. *)
Definition loc_at (df : DataFrame) (name period : label) : result float :=
  if has_column df period then
    s <- loc df name ;;
    match series_get s period with
    | Some v => Ok v
    | None => Raise (KeyError period)
    end
  else Raise (KeyError period).

(** [s.index] *)
Definition series_index (s : Series) : list label := map fst s.

(** Element-wise binary operation on two series.  Series over the same
    index are combined position by position; otherwise pandas aligns on
    the union of the two indexes and a label missing on either side gives
    NaN.  (pandas may sort the union; the only consumer of the result,
    [set_loc], looks values up by label, so the order is immaterial.) *)
Definition series_op (op : float -> float -> float) (a b : Series) : Series :=
  if list_eq_dec string_dec (series_index a) (series_index b)
  then map (fun xy => (fst (fst xy), op (snd (fst xy)) (snd (snd xy))))
           (combine a b)
  else
    let extra :=
      filter (fun l => negb (existsb (String.eqb l) (series_index a)))
             (series_index b) in
    map (fun l =>
           (l, match series_get a l, series_get b l with
               | Some x, Some y => op x y
               | _, _ => nan
               end))
        (series_index a ++ extra).

Definition series_div : Series -> Series -> Series := series_op PrimFloat.div.
Definition series_sub : Series -> Series -> Series := series_op PrimFloat.sub.

(** [pd.DataFrame(index=names, columns=periods)]: every cell NaN. *)
Definition empty_frame (names periods : list label) : DataFrame :=
  {| columns := periods;
     rows := map (fun n => (n, map (fun _ => nan) periods)) names |}.

(** The series reindexed over [periods]: NaN where it has no value.
    (For periods that are distinct; see [unique_labels].) *)
Definition reindex (periods : list label) (s : Series) : list float :=
  map (fun p => match series_get s p with Some v => v | None => nan end)
      periods.

Fixpoint replace_row (name : label) (vs : list float)
         (rs : list (label * list float)) : list (label * list float) :=
  match rs with
  | [] => [(name, vs)]
  | (n, old) :: rest =>
      if String.eqb name n then (n, vs) :: rest
      else (n, old) :: replace_row name vs rest
  end.

(** [df.loc[name] = s]: the series is aligned to the frame's columns and
    replaces the row (a label not yet in the index is appended). *)
Definition set_loc (df : DataFrame) (name : label) (s : Series) : DataFrame :=
  {| columns := columns df;
     rows := replace_row name (reindex (columns df) s) (rows df) |}.

(** [df.columns[-1]] and [df.columns[-2]] *)
Definition last_column (df : DataFrame) : result label :=
  match rev (columns df) with
  | p :: _ => Ok p
  | [] => Raise (IndexError "index -1 is out of bounds for axis 0 with size 0")
  end.

Definition second_last_column (df : DataFrame) : option label :=
  match rev (columns df) with
  | _ :: p :: _ => Some p
  | _ => None
  end.

End Pandas.

(** ** The analyzer *)

Module Analyzer.

Import Py Pandas.
Local Open Scope py_scope.
Local Open Scope string_scope.

(** [report.append(line)] *)
Definition append (report : list string) (line : string) : list string :=
  (report ++ [line])%list.

(** The instance attributes set by [__init__] (lines 35-38). *)
Record FinancialStatementAnalyzer : Type := mkAnalyzer {
  income_statement : option DataFrame;
  balance_sheet : option DataFrame;
  cash_flow : option DataFrame;
  ratios : option DataFrame
}.

(** What a method call leaves behind: the value returned, the instance
    afterwards, the lines printed and the files written (path, text). *)
Record Run (A : Type) : Type := mkRun {
  returned : A;
  after : FinancialStatementAnalyzer;
  printed : list string;
  written : list (string * string)
}.
Arguments mkRun {A}.
Arguments returned {A}.
Arguments after {A}.
Arguments printed {A}.
Arguments written {A}.

Definition set_ratios (self : FinancialStatementAnalyzer) (r : DataFrame)
  : FinancialStatementAnalyzer :=
  {| income_statement := income_statement self;
     balance_sheet := balance_sheet self;
     cash_flow := cash_flow self;
     ratios := Some r |}.

(** The index of the ratio table (lines 82-85). *)
Definition ratio_names : list label :=
  [ "Current Ratio"; "Quick Ratio"; "Debt-to-Equity";
    "Gross Margin"; "Operating Margin"; "Net Margin";
    "Return on Assets"; "Return on Equity";
    "Inventory Turnover"; "Asset Turnover" ].

(** Lines 81-151: the fresh table and the body of the [try], statement by
    statement; in each statement the operands are looked up left to
    right before the row is assigned. *)
Definition ratio_rows (income balance : DataFrame) : result DataFrame :=
  let periods := columns income in
  let ratios := empty_frame ratio_names periods in
  (* Current Ratio *)
  a <- loc balance "Current Assets" ;;
  b <- loc balance "Current Liabilities" ;;
  let ratios := set_loc ratios "Current Ratio" (series_div a b) in
  (* Quick Ratio *)
  a <- loc balance "Current Assets" ;;
  i <- loc balance "Inventory" ;;
  b <- loc balance "Current Liabilities" ;;
  let ratios := set_loc ratios "Quick Ratio" (series_div (series_sub a i) b) in
  (* Debt-to-Equity *)
  a <- loc balance "Total Liabilities" ;;
  b <- loc balance "Total Equity" ;;
  let ratios := set_loc ratios "Debt-to-Equity" (series_div a b) in
  (* Gross Margin *)
  a <- loc income "Gross Profit" ;;
  b <- loc income "Revenue" ;;
  let ratios := set_loc ratios "Gross Margin" (series_div a b) in
  (* Operating Margin *)
  a <- loc income "Operating Income" ;;
  b <- loc income "Revenue" ;;
  let ratios := set_loc ratios "Operating Margin" (series_div a b) in
  (* Net Margin *)
  a <- loc income "Net Income" ;;
  b <- loc income "Revenue" ;;
  let ratios := set_loc ratios "Net Margin" (series_div a b) in
  (* Return on Assets *)
  a <- loc income "Net Income" ;;
  b <- loc balance "Total Assets" ;;
  let ratios := set_loc ratios "Return on Assets" (series_div a b) in
  (* Return on Equity *)
  a <- loc income "Net Income" ;;
  b <- loc balance "Total Equity" ;;
  let ratios := set_loc ratios "Return on Equity" (series_div a b) in
  (* Inventory Turnover *)
  a <- loc income "Cost of Goods Sold" ;;
  b <- loc balance "Inventory" ;;
  let ratios := set_loc ratios "Inventory Turnover" (series_div a b) in
  (* Asset Turnover *)
  a <- loc income "Revenue" ;;
  b <- loc balance "Total Assets" ;;
  let ratios := set_loc ratios "Asset Turnover" (series_div a b) in
  Ok ratios.

(** [calculate_financial_ratios] (lines 67-158). *)
Definition calculate_financial_ratios (self : FinancialStatementAnalyzer)
  : Run (option DataFrame) :=
  match income_statement self, balance_sheet self with
  | Some income, Some balance =>
      match ratio_rows income balance with
      | Ok ratios => mkRun (Some ratios) (set_ratios self ratios) [] []
      | Raise e =>
          mkRun None self ["Error calculating ratios: " ++ str_exn e] []
      end
  | _, _ =>
      mkRun None self
        ["Income statement and balance sheet are required to calculate ratios"]
        []
  end.

(** [self.income_statement.loc[name, period]]; with no income statement
    the attribute access on [None] raises. *)
Definition income_at (income : option DataFrame) (name period : label)
  : result float :=
  match income with
  | Some df => loc_at df name period
  | None => Raise (AttributeError "'NoneType' object has no attribute 'loc'")
  end.

(** Lines 250-308: the list [report]. *)
Definition report_lines (ratios : DataFrame) (income : option DataFrame)
           (today : string) : result (list string) :=
  latest_period <- last_column ratios ;;
  let previous_period := second_last_column ratios in
  let report :=
    [ "# Financial Statement Analysis Summary Report";
      "## Period: " ++ latest_period;
      "Generated on: " ++ today ++ LF;
      "## Key Financial Metrics" ++ LF;
      "### Revenue and Profit" ] in
  revenue <- income_at income "Revenue" latest_period ;;
  net_income <- income_at income "Net Income" latest_period ;;
  let report := append report ("- Revenue: $" ++ Fmt.fixed2 true revenue) in
  let report := append report ("- Net Income: $" ++ Fmt.fixed2 true net_income) in
  net_margin <- loc_at ratios "Net Margin" latest_period ;;
  let report := append report ("- Net Margin: " ++ Fmt.percent2 net_margin ++ LF) in
  let report := append report ("### Liquidity") in
  current_ratio <- loc_at ratios "Current Ratio" latest_period ;;
  let report :=
    append report ("- Current Ratio: " ++ Fmt.fixed2 false current_ratio) in
  quick_ratio <- loc_at ratios "Quick Ratio" latest_period ;;
  let report :=
    append report ("- Quick Ratio: " ++ Fmt.fixed2 false quick_ratio ++ LF) in
  let report := append report ("### Profitability") in
  roa <- loc_at ratios "Return on Assets" latest_period ;;
  let report :=
    append report ("- Return on Assets (ROA): " ++ Fmt.percent2 roa) in
  roe <- loc_at ratios "Return on Equity" latest_period ;;
  let report :=
    append report ("- Return on Equity (ROE): " ++ Fmt.percent2 roe ++ LF) in
  report <-
    (if truthy previous_period then
       let previous_period :=
         match previous_period with Some p => p | None => "" end in
       let report := append report ("## Period-over-Period Changes" ++ LF) in
       r1 <- income_at income "Revenue" latest_period ;;
       r0 <- income_at income "Revenue" previous_period ;;
       let revenue_growth := (r1 / r0 - 1)%float in
       let report :=
         append report ("- Revenue Growth: " ++ Fmt.percent2 revenue_growth) in
       n1 <- income_at income "Net Income" latest_period ;;
       n0 <- income_at income "Net Income" previous_period ;;
       let net_income_growth := (n1 / n0 - 1)%float in
       let report :=
         append report ("- Net Income Growth: " ++ Fmt.percent2 net_income_growth) in
       m1 <- loc_at ratios "Net Margin" latest_period ;;
       m0 <- loc_at ratios "Net Margin" previous_period ;;
       let margin_change := (m1 - m0)%float in
       Ok (append report
             ("- Net Margin Change: " ++ Fmt.percent2 margin_change
                ++ " points" ++ LF))
     else Ok report) ;;
  let report := append report ("## Insights and Recommendations" ++ LF) in
  let report :=
    append report
      "1. Placeholder for automated insights based on financial analysis" in
  let report :=
    append report
      "2. Placeholder for recommendations based on trend analysis" in
  let report := append report ("3. Placeholder for risk assessment" ++ LF) in
  Ok report.

(** The text returned when there are still no ratios (line 247). *)
Definition no_ratios_reply : string :=
  "Unable to generate report without financial ratios.".

(** [generate_summary_report] (lines 229-319).  [today] is the date the
    clock gives, already formatted as [%Y-%m-%d].  The file, when there
    is one to write, is taken to be writable. *)
Definition generate_summary_report (self : FinancialStatementAnalyzer)
           (today : string) (output_path : option string)
  : Run (result string) :=
  let first :=
    match ratios self with
    | None => calculate_financial_ratios self
    | Some _ => mkRun None self [] []
    end in
  let self := after first in
  match ratios self with
  | None => mkRun (Ok no_ratios_reply) self (printed first) []
  | Some rt =>
      match report_lines rt (income_statement self) today with
      | Raise e => mkRun (Raise e) self (printed first) []
      | Ok report =>
          let report_text := join LF report in
          if truthy output_path then
            let path := match output_path with Some p => p | None => "" end in
            mkRun (Ok report_text) self
                  (app (printed first) ["Report saved to " ++ path])
                  [(path, report_text)]
          else mkRun (Ok report_text) self (printed first) []
      end
  end.

End Analyzer.

(** ** Sample statements

    The first two periods of the figures in [main] (lines 328-345).  The
    income statement of [main] has no "Operating Income" row;
    [income_complete] adds one. *)

Module Sample.

Import Py Pandas Analyzer.
Local Open Scope float_scope.

Definition quarters : list label := ["2023-Q1"; "2023-Q2"]%string.

Definition income_main : DataFrame :=
  {| columns := quarters;
     rows := [ ("Revenue", [1000000; 1050000]);
               ("Cost of Goods Sold", [600000; 620000]);
               ("Gross Profit", [400000; 430000]);
               ("Operating Expenses", [250000; 260000]);
               ("Net Income", [150000; 170000]) ]%string |}.

Definition income_complete : DataFrame :=
  {| columns := quarters;
     rows := app (rows income_main)
                 [ ("Operating Income", [150000; 170000])%string ] |}.

Definition balance_main : DataFrame :=
  {| columns := quarters;
     rows := [ ("Current Assets", [500000; 520000]);
               ("Inventory", [100000; 110000]);
               ("Total Current Assets", [600000; 630000]);
               ("Non-Current Assets", [1500000; 1520000]);
               ("Total Assets", [2100000; 2150000]);
               ("Current Liabilities", [400000; 410000]);
               ("Long-term Liabilities", [800000; 820000]);
               ("Total Liabilities", [1200000; 1230000]);
               ("Total Equity", [900000; 920000]) ]%string |}.

(** The same sheet without its "Inventory" row. *)
Definition balance_no_inventory : DataFrame :=
  {| columns := quarters;
     rows := filter (fun r => negb (String.eqb (fst r) "Inventory"))
                    (rows balance_main) |}.

(** A balance sheet whose current liabilities are zero in 2023-Q2. *)
Definition balance_no_liabilities : DataFrame :=
  {| columns := quarters;
     rows := [ ("Current Assets", [500000; 520000]);
               ("Inventory", [100000; 110000]);
               ("Total Assets", [2100000; 2150000]);
               ("Current Liabilities", [400000; 0]);
               ("Total Liabilities", [1200000; 1230000]);
               ("Total Equity", [900000; 920000]) ]%string |}.

(** The complete income statement without its "Revenue" row. *)
Definition income_no_revenue : DataFrame :=
  {| columns := quarters;
     rows := filter (fun r => negb (String.eqb (fst r) "Revenue"))
                    (rows income_complete) |}.

(** An income statement whose second quarter has revenue 1000000 and
    gross profit 400000. *)
Definition income_mixed : DataFrame :=
  {| columns := quarters;
     rows := [ ("Revenue", [900000; 1000000]);
               ("Cost of Goods Sold", [560000; 600000]);
               ("Gross Profit", [340000; 400000]);
               ("Operating Income", [120000; 150000]);
               ("Net Income", [110000; 150000]) ]%string |}.

(** The first quarter alone. *)
Definition first_quarter (df : DataFrame) : DataFrame :=
  {| columns := firstn 1 (columns df);
     rows := map (fun r => (fst r, firstn 1 (snd r))) (rows df) |}.

(** A freshly constructed analyzer holding the two statements. *)
Definition analyzer (income balance : option DataFrame)
  : FinancialStatementAnalyzer :=
  {| income_statement := income;
     balance_sheet := balance;
     cash_flow := None;
     ratios := None |}.

(** The report of the complete sample statements, dated 2025-09-09. *)
Definition sample_report : list string :=
  [ "# Financial Statement Analysis Summary Report";
    "## Period: 2023-Q2";
    ("Generated on: 2025-09-09" ++ LF)%string;
    ("## Key Financial Metrics" ++ LF)%string;
    "### Revenue and Profit";
    "- Revenue: $1,050,000.00";
    "- Net Income: $170,000.00";
    ("- Net Margin: 16.19%" ++ LF)%string;
    "### Liquidity";
    "- Current Ratio: 1.27";
    ("- Quick Ratio: 1.00" ++ LF)%string;
    "### Profitability";
    "- Return on Assets (ROA): 7.91%";
    ("- Return on Equity (ROE): 18.48%" ++ LF)%string;
    ("## Period-over-Period Changes" ++ LF)%string;
    "- Revenue Growth: 5.00%";
    "- Net Income Growth: 13.33%";
    ("- Net Margin Change: 1.19% points" ++ LF)%string;
    ("## Insights and Recommendations" ++ LF)%string;
    "1. Placeholder for automated insights based on financial analysis";
    "2. Placeholder for recommendations based on trend analysis";
    ("3. Placeholder for risk assessment" ++ LF)%string ].

(** The analyzer after a successful ratio computation on the complete
    statements, and the same analyzer once its income statement has been
    replaced by one without "Revenue" (the ratio slot is not reset by
    loading statements, lines 56-58). *)
Definition computed : FinancialStatementAnalyzer :=
  after (calculate_financial_ratios
           (analyzer (Some income_complete) (Some balance_main))).

Definition reloaded : FinancialStatementAnalyzer :=
  {| income_statement := Some income_no_revenue;
     balance_sheet := balance_sheet computed;
     cash_flow := cash_flow computed;
     ratios := ratios computed |}.

End Sample.

(** ** The ratio catalogue as the design describes it

    One formula per ratio, over rows of the two statements; the table the
    computation is compared with below. *)

Module Catalogue.

Import Py Pandas Analyzer.
Local Open Scope string_scope.

Inductive statement : Type := Income | Balance.

Inductive formula : Type :=
| Row (s : statement) (name : label)
| Div (a b : formula)
| Sub (a b : formula).

Definition ratio_formula : list (label * formula) :=
  [ ("Current Ratio",
     Div (Row Balance "Current Assets") (Row Balance "Current Liabilities"));
    ("Quick Ratio",
     Div (Sub (Row Balance "Current Assets") (Row Balance "Inventory"))
         (Row Balance "Current Liabilities"));
    ("Debt-to-Equity",
     Div (Row Balance "Total Liabilities") (Row Balance "Total Equity"));
    ("Gross Margin", Div (Row Income "Gross Profit") (Row Income "Revenue"));
    ("Operating Margin",
     Div (Row Income "Operating Income") (Row Income "Revenue"));
    ("Net Margin", Div (Row Income "Net Income") (Row Income "Revenue"));
    ("Return on Assets",
     Div (Row Income "Net Income") (Row Balance "Total Assets"));
    ("Return on Equity",
     Div (Row Income "Net Income") (Row Balance "Total Equity"));
    ("Inventory Turnover",
     Div (Row Income "Cost of Goods Sold") (Row Balance "Inventory"));
    ("Asset Turnover",
     Div (Row Income "Revenue") (Row Balance "Total Assets")) ].

Fixpoint rows_of (f : formula) : list (statement * label) :=
  match f with
  | Row s n => [(s, n)]
  | Div a b | Sub a b => (rows_of a ++ rows_of b)%list
  end.

(** The rows the ten formulas read, in the order they are read. *)
Definition required_rows : list (statement * label) :=
  flat_map (fun nf => rows_of (snd nf)) ratio_formula.

Section Statements.

Variables income balance : DataFrame.

Definition table (s : statement) : DataFrame :=
  match s with Income => income | Balance => balance end.

Definition present (r : statement * label) : bool :=
  has_row (table (fst r)) (snd r).

(** The first required row, in reading order, that its table lacks. *)
Definition first_missing : option (statement * label) :=
  find (fun r => negb (present r)) required_rows.

Definition complete : Prop :=
  forall r, In r required_rows -> present r = true.

(** The formula at one period, from the cells of that period. *)
Fixpoint value_at (f : formula) (p : label) : option float :=
  match f with
  | Row s n =>
      match loc_at (table s) n p with Ok v => Some v | Raise _ => None end
  | Div a b =>
      match value_at a p, value_at b p with
      | Some x, Some y => Some (x / y)%float
      | _, _ => None
      end
  | Sub a b =>
      match value_at a p, value_at b p with
      | Some x, Some y => Some (x - y)%float
      | _, _ => None
      end
  end.

(** The formula over whole rows. *)
Definition row_series (df : DataFrame) (n : label) : Series :=
  match find_row n (rows df) with
  | Some vs => combine (columns df) vs
  | None => []
  end.

Fixpoint series_of (f : formula) : Series :=
  match f with
  | Row s n => row_series (table s) n
  | Div a b => series_div (series_of a) (series_of b)
  | Sub a b => series_sub (series_of a) (series_of b)
  end.

Definition ratio_table : DataFrame :=
  {| columns := columns income;
     rows := map (fun nf => (fst nf, reindex (columns income) (series_of (snd nf))))
                 ratio_formula |}.

End Statements.

End Catalogue.

(** ** The layout of the report as the design describes it

    The mandatory sections, each as the lines it contributes. *)

Module Layout.

Import Py Pandas.
Local Open Scope string_scope.

Definition header (latest today : string) : list string :=
  [ "# Financial Statement Analysis Summary Report";
    "## Period: " ++ latest;
    "Generated on: " ++ today ++ LF;
    "## Key Financial Metrics" ++ LF ].

Definition revenue_and_profit (revenue net_income net_margin : float)
  : list string :=
  [ "### Revenue and Profit";
    "- Revenue: $" ++ Fmt.fixed2 true revenue;
    "- Net Income: $" ++ Fmt.fixed2 true net_income;
    "- Net Margin: " ++ Fmt.percent2 net_margin ++ LF ].

Definition liquidity (current_ratio quick_ratio : float) : list string :=
  [ "### Liquidity";
    "- Current Ratio: " ++ Fmt.fixed2 false current_ratio;
    "- Quick Ratio: " ++ Fmt.fixed2 false quick_ratio ++ LF ].

Definition profitability (roa roe : float) : list string :=
  [ "### Profitability";
    "- Return on Assets (ROA): " ++ Fmt.percent2 roa;
    "- Return on Equity (ROE): " ++ Fmt.percent2 roe ++ LF ].

Definition changes_heading : string := "## Period-over-Period Changes" ++ LF.

Definition period_over_period
           (revenue_growth net_income_growth margin_change : float)
  : list string :=
  [ changes_heading;
    "- Revenue Growth: " ++ Fmt.percent2 revenue_growth;
    "- Net Income Growth: " ++ Fmt.percent2 net_income_growth;
    "- Net Margin Change: " ++ Fmt.percent2 margin_change ++ " points" ++ LF ].

Definition insights : list string :=
  [ "## Insights and Recommendations" ++ LF;
    "1. Placeholder for automated insights based on financial analysis";
    "2. Placeholder for recommendations based on trend analysis";
    "3. Placeholder for risk assessment" ++ LF ].

(** The figures of the latest period that the report shows. *)
Record figures : Type := mkFigures {
  revenue : float;
  net_income : float;
  net_margin : float;
  current_ratio : float;
  quick_ratio : float;
  return_on_assets : float;
  return_on_equity : float
}.

Definition key_metrics (latest today : string) (x : figures) : list string :=
  (header latest today
     ++ revenue_and_profit (revenue x) (net_income x) (net_margin x)
     ++ liquidity (current_ratio x) (quick_ratio x)
     ++ profitability (return_on_assets x) (return_on_equity x))%list.

(** The report reads the figures [x] of period [latest] from the income
    statement and the ratio table. *)
Definition reads (rt : DataFrame) (income : option DataFrame)
           (latest : label) (x : figures) : Prop :=
  Analyzer.income_at income "Revenue" latest = Ok (revenue x) /\
  Analyzer.income_at income "Net Income" latest = Ok (net_income x) /\
  loc_at rt "Net Margin" latest = Ok (net_margin x) /\
  loc_at rt "Current Ratio" latest = Ok (current_ratio x) /\
  loc_at rt "Quick Ratio" latest = Ok (quick_ratio x) /\
  loc_at rt "Return on Assets" latest = Ok (return_on_assets x) /\
  loc_at rt "Return on Equity" latest = Ok (return_on_equity x).

(** The periods whose cells the report reads: the last column, and the
    one before it when it exists and its label counts as true. *)
Definition report_periods (rt : DataFrame) : list label :=
  match rev (columns rt) with
  | [] => []
  | latest :: rest =>
      latest ::
        match rest with
        | previous :: _ => if truthy (Some previous) then [previous] else []
        | [] => []
        end
  end.

End Layout.

(** ** The rest of the analyzer: construction, loading, plotting, [main] *)

Module PyStr.

Local Open Scope string_scope.

(** [str.lower] and [str.capitalize] on ASCII text (category names are
    ASCII; other bytes are left as they are). *)
Definition lower_char (c : ascii) : ascii :=
  let n := nat_of_ascii c in
  if (65 <=? n)%nat && (n <=? 90)%nat then ascii_of_nat (n + 32) else c.

Definition upper_char (c : ascii) : ascii :=
  let n := nat_of_ascii c in
  if (97 <=? n)%nat && (n <=? 122)%nat then ascii_of_nat (n - 32) else c.

Fixpoint lower (s : string) : string :=
  match s with
  | EmptyString => EmptyString
  | String c rest => String (lower_char c) (lower rest)
  end.

Definition capitalize (s : string) : string :=
  match s with
  | EmptyString => EmptyString
  | String c rest => String (upper_char c) (lower rest)
  end.

(** [str(l)] for a list of plain strings: ['a', 'b']. *)
Definition repr_list (l : list string) : string :=
  "[" ++ Py.join ", " (map (fun k => "'" ++ k ++ "'") l) ++ "]".

End PyStr.

Module Extras.

Import Py Pandas Analyzer.
Local Open Scope py_scope.
Local Open Scope string_scope.

(** [__init__] (lines 22-38). *)
Definition init (income_statement balance_sheet cash_flow : option DataFrame)
  : FinancialStatementAnalyzer :=
  {| income_statement := income_statement;
     balance_sheet := balance_sheet;
     cash_flow := cash_flow;
     ratios := None |}.

(** What [pd.read_excel(file_path, sheet_name=..., index_col=0)] gives for
    a path and a sheet name: a frame, or the text of the exception it
    raises (the handler only prints it). *)
Definition reader : Type := string -> string -> DataFrame + string.

Definition set_income (self : FinancialStatementAnalyzer) (df : DataFrame)
  : FinancialStatementAnalyzer :=
  {| income_statement := Some df;
     balance_sheet := balance_sheet self;
     cash_flow := cash_flow self;
     ratios := ratios self |}.

Definition set_balance (self : FinancialStatementAnalyzer) (df : DataFrame)
  : FinancialStatementAnalyzer :=
  {| income_statement := income_statement self;
     balance_sheet := Some df;
     cash_flow := cash_flow self;
     ratios := ratios self |}.

Definition set_cash_flow (self : FinancialStatementAnalyzer) (df : DataFrame)
  : FinancialStatementAnalyzer :=
  {| income_statement := income_statement self;
     balance_sheet := balance_sheet self;
     cash_flow := Some df;
     ratios := ratios self |}.

(** [load_statements_from_excel] (lines 40-65): the three sheets are read
    and assigned one after the other inside the [try]. *)
Definition load_statements_from_excel (read_excel : reader)
           (self : FinancialStatementAnalyzer) (file_path : string)
  : Run bool :=
  let failed (self : FinancialStatementAnalyzer) (e : string) :=
    mkRun false self ["Error loading financial statements: " ++ e] [] in
  match read_excel file_path "Income_Statement" with
  | inr e => failed self e
  | inl income =>
      let self := set_income self income in
      match read_excel file_path "Balance_Sheet" with
      | inr e => failed self e
      | inl balance =>
          let self := set_balance self balance in
          match read_excel file_path "Cash_Flow" with
          | inr e => failed self e
          | inl cash =>
              let self := set_cash_flow self cash in
              mkRun true self
                ["Successfully loaded financial statements from " ++ file_path]
                []
          end
      end
  end.

(** The calls made on matplotlib, in order: the figure is what they
    describe. *)
Inductive call : Type :=
| Subplots (figsize : float * float)
| Plot (x : list label) (y : list float) (marker : string) (legend_label : string)
| SetTitle (text : string) (fontsize : nat)
| SetXLabel (text : string) (fontsize : nat)
| SetYLabel (text : string) (fontsize : nat)
| Grid (linestyle : string) (alpha : float)
| Legend
| XTicks (rotation : nat)
| TightLayout
| SaveFig (path : string) (dpi : nat) (bbox_inches : string).

Definition Figure : Type := list call.

(** The dictionary of lines 183-189, in insertion order. *)
Definition ratio_categories : list (string * list label) :=
  [ ("liquidity", ["Current Ratio"; "Quick Ratio"]);
    ("profitability", ["Gross Margin"; "Operating Margin"; "Net Margin";
                       "Return on Assets"; "Return on Equity"]);
    ("leverage", ["Debt-to-Equity"]);
    ("efficiency", ["Inventory Turnover"; "Asset Turnover"]) ].

Fixpoint category_get (key : string) (d : list (string * list label))
  : option (list label) :=
  match d with
  | [] => None
  | (k, v) :: rest => if String.eqb key k then Some v else category_get key rest
  end.

(** The loop of lines 202-204. *)
Fixpoint plot_each (ratios : DataFrame) (ratios_to_plot : list label)
         (fig : Figure) : result Figure :=
  match ratios_to_plot with
  | [] => Ok fig
  | ratio :: rest =>
      if has_row ratios ratio then
        s <- loc ratios ratio ;;
        plot_each ratios rest
                  (app fig [Plot (columns ratios) (map snd s) "o" ratio])
      else plot_each ratios rest fig
  end.

(** [plot_ratio_trends] (lines 160-227): the figure returned (or [None]),
    and the line printed when there is none.  The image written by
    [savefig] is recorded among the calls of the figure; [written] lists
    text files only.  The calls on matplotlib are taken to succeed. *)
Definition plot_ratio_trends (self : FinancialStatementAnalyzer)
           (ratio_category : string) (figsize : float * float)
           (save_path : option string)
  : Run (result (option Figure)) :=
  match ratios self with
  | None =>
      mkRun (Ok None) self
        ["No ratios available. Call calculate_financial_ratios() first."] []
  | Some rt =>
      match category_get (PyStr.lower ratio_category) ratio_categories with
      | None =>
          mkRun (Ok None) self
            ["Invalid ratio category. Choose from: "
               ++ PyStr.repr_list (map fst ratio_categories)] []
      | Some ratios_to_plot =>
          match plot_each rt ratios_to_plot [Subplots figsize] with
          | Raise e => mkRun (Raise e) self [] []
          | Ok fig =>
              let fig :=
                app fig [ SetTitle (PyStr.capitalize ratio_category
                                      ++ " Ratios Trend") 14;
                          SetXLabel "Period" 12;
                          SetYLabel "Ratio Value" 12;
                          Grid "--" 0.7%float;
                          Legend;
                          XTicks 45;
                          TightLayout ] in
              let fig :=
                if truthy save_path
                then app fig [ SaveFig (match save_path with
                                        | Some p => p | None => "" end)
                                       300 "tight" ]
                else fig in
              mkRun (Ok (Some fig)) self [] []
          end
      end
  end.

(** *** Calls that can fail

    [open], [plt.subplots], [plt.savefig] and the other calls into the
    operating system and matplotlib can raise (an unwritable path, an
    invalid figure size).  Above, [generate_summary_report] and
    [plot_ratio_trends] describe the runs in which these calls succeed.
    The definitions below are the same two methods with the calls'
    failures made explicit: what a call raises is a parameter. *)

(** An exception raised inside such a call: its class and its text. *)
Record foreign_error : Type := mkError {
  error_class : string;
  error_text : string
}.

(** How a method ends: as the methods above do (a value returned or an
    exception of the model raised), or with the exception of a failed
    call, which no handler catches. *)
Inductive outcome (A : Type) : Type :=
| Completed (r : result A)
| Failed (e : foreign_error).
Arguments Completed {A} r.
Arguments Failed {A} e.

Definition and_then {A B : Type} (m : outcome A) (k : A -> outcome B)
  : outcome B :=
  match m with
  | Completed (Ok a) => k a
  | Completed (Raise e) => Completed (Raise e)
  | Failed e => Failed e
  end.

Notation "x <~ m ;; k" := (and_then m (fun x => k))
  (at level 61, m at next level, right associativity) : py_scope.


(** One call on the figure: it is recorded unless it raises. *)
Definition do_call (call_error : call -> option foreign_error)
           (fig : Figure) (c : call) : outcome Figure :=
  match call_error c with
  | Some e => Failed e
  | None => Completed (Ok (app fig [c]))
  end.

(** The loop of lines 202-204, with calls that can fail. *)
Fixpoint plot_each_on (call_error : call -> option foreign_error)
         (ratios : DataFrame) (ratios_to_plot : list label) (fig : Figure)
  : outcome Figure :=
  match ratios_to_plot with
  | [] => Completed (Ok fig)
  | ratio :: rest =>
      if has_row ratios ratio then
        s <~ Completed (loc ratios ratio) ;;
        fig <~ do_call call_error fig
                       (Plot (columns ratios) (map snd s) "o" ratio) ;;
        plot_each_on call_error ratios rest fig
      else plot_each_on call_error ratios rest fig
  end.

(** [plot_ratio_trends] (lines 160-227), where each call on matplotlib
    raises what [call_error] says for it. *)
Definition plot_ratio_trends_on (call_error : call -> option foreign_error)
           (self : FinancialStatementAnalyzer)
           (ratio_category : string) (figsize : float * float)
           (save_path : option string)
  : Run (outcome (option Figure)) :=
  match ratios self with
  | None =>
      mkRun (Completed (Ok None)) self
        ["No ratios available. Call calculate_financial_ratios() first."] []
  | Some rt =>
      match category_get (PyStr.lower ratio_category) ratio_categories with
      | None =>
          mkRun (Completed (Ok None)) self
            ["Invalid ratio category. Choose from: "
               ++ PyStr.repr_list (map fst ratio_categories)] []
      | Some ratios_to_plot =>
          let call := do_call call_error in
          mkRun
            (fig <~ call [] (Subplots figsize) ;;
             fig <~ plot_each_on call_error rt ratios_to_plot fig ;;
             fig <~ call fig (SetTitle (PyStr.capitalize ratio_category
                                          ++ " Ratios Trend") 14) ;;
             fig <~ call fig (SetXLabel "Period" 12) ;;
             fig <~ call fig (SetYLabel "Ratio Value" 12) ;;
             fig <~ call fig (Grid "--" 0.7%float) ;;
             fig <~ call fig Legend ;;
             fig <~ call fig (XTicks 45) ;;
             fig <~ call fig TightLayout ;;
             fig <~ (if truthy save_path
                     then call fig
                               (SaveFig (match save_path with
                                         | Some p => p | None => "" end)
                                        300 "tight")
                     else Completed (Ok fig)) ;;
             Completed (Ok (Some fig)))
            self [] []
      end
  end.

(** The exception of the first call of a list that raises, if any. *)
Fixpoint first_error (call_error : call -> option foreign_error)
         (calls : list call) : option foreign_error :=
  match calls with
  | [] => None
  | c :: rest =>
      match call_error c with
      | Some e => Some e
      | None => first_error call_error rest
      end
  end.

(** A file system in which the directory [/missing] does not exist:
    what opening a file for writing raises, and what matplotlib's calls
    raise on it. *)
Definition missing_directory (path : string) : option foreign_error :=
  if String.prefix "/missing/" path
  then Some (mkError "FileNotFoundError"
                     ("[Errno 2] No such file or directory: '" ++ path ++ "'"))
  else None.

Definition missing_directory_calls (c : call) : option foreign_error :=
  match c with
  | SaveFig path _ _ => missing_directory path
  | _ => None
  end.

(** The statements built in [main] (lines 328-345). *)
Definition main_periods : list label :=
  ["2023-Q1"; "2023-Q2"; "2023-Q3"; "2023-Q4"; "2024-Q1"].

Definition main_income_statement : DataFrame :=
  {| columns := main_periods;
     rows :=
       [ ("Revenue", [1000000; 1050000; 1100000; 1200000; 1250000]);
         ("Cost of Goods Sold", [600000; 620000; 640000; 680000; 700000]);
         ("Gross Profit", [400000; 430000; 460000; 520000; 550000]);
         ("Operating Expenses", [250000; 260000; 270000; 290000; 300000]);
         ("Net Income", [150000; 170000; 190000; 230000; 250000]) ]%float |}.

Definition main_balance_sheet : DataFrame :=
  {| columns := main_periods;
     rows :=
       [ ("Current Assets", [500000; 520000; 550000; 600000; 650000]);
         ("Inventory", [100000; 110000; 120000; 130000; 140000]);
         ("Total Current Assets", [600000; 630000; 670000; 730000; 790000]);
         ("Non-Current Assets", [1500000; 1520000; 1550000; 1600000; 1650000]);
         ("Total Assets", [2100000; 2150000; 2220000; 2330000; 2440000]);
         ("Current Liabilities", [400000; 410000; 430000; 450000; 470000]);
         ("Long-term Liabilities", [800000; 820000; 840000; 880000; 920000]);
         ("Total Liabilities", [1200000; 1230000; 1270000; 1330000; 1390000]);
         ("Total Equity", [900000; 920000; 950000; 1000000; 1050000]) ]%float |}.

(** [main] (lines 322-362): the lines it prints, and the value of its
    local [ratios]. *)
Definition main : list string * option DataFrame :=
  let out := ["Financial Statement Analyzer"; "---------------------------"] in
  let analyzer :=
    init (Some main_income_statement) (Some main_balance_sheet) None in
  let run := calculate_financial_ratios analyzer in
  let out := app out (printed run) in
  let out :=
    app out
      [ LF ++ "This script demonstrates financial statement analysis:";
        "1. Loading financial statements from Excel files";
        "2. Calculating key financial ratios";
        "3. Plotting ratio trends over time";
        "4. Generating a summary report with insights";
        LF ++ "To use this script with your own data, provide file paths to your financial statements." ] in
  (out, returned run).

(** A workbook with three sheets under one path, and one that has no
    balance sheet. *)
Definition workbook (file_path sheet : string) : DataFrame + string :=
  if String.eqb file_path "statements.xlsx" then
    if String.eqb sheet "Income_Statement" then inl Sample.income_no_revenue
    else if String.eqb sheet "Balance_Sheet" then inl Sample.balance_main
    else if String.eqb sheet "Cash_Flow" then inl Sample.income_main
    else inr ("Worksheet named '" ++ sheet ++ "' not found")
  else inr ("[Errno 2] No such file or directory: '" ++ file_path ++ "'").

Definition workbook_without_balance (file_path sheet : string)
  : DataFrame + string :=
  if String.eqb sheet "Balance_Sheet"
  then inr ("Worksheet named '" ++ sheet ++ "' not found")
  else workbook file_path sheet.


(** The legend labels of the lines drawn on a figure, in drawing order. *)
Definition plotted_labels (fig : Figure) : list label :=
  flat_map (fun c => match c with Plot _ _ _ l => [l] | _ => [] end) fig.

(** The figure a call of [plot_ratio_trends] returned, if any. *)
Definition figure_of (r : Run (result (option Figure))) : Figure :=
  match returned r with
  | Ok (Some fig) => fig
  | _ => []
  end.

(** The cells of a row of a frame, in column order. *)
Definition row_cells (df : DataFrame) (name : label) : list float :=
  match loc df name with
  | Ok s => map snd s
  | Raise _ => []
  end.

(** Whether a formula of the catalogue reads a row of the balance sheet. *)
Fixpoint reads_balance (f : Catalogue.formula) : bool :=
  match f with
  | Catalogue.Row Catalogue.Balance _ => true
  | Catalogue.Row Catalogue.Income _ => false
  | Catalogue.Div a b | Catalogue.Sub a b => reads_balance a || reads_balance b
  end.

End Extras.

(** ** Lemmas on the pandas model *)

Module PandasFacts.

Import Py Pandas.

Lemma series_get_some_in (s : Series) (p : label) :
  series_get s p <> None <-> In p (series_index s).
Proof.
  induction s as [|[q v] s IH]; simpl.
  - split; [congruence | tauto].
  - destruct (String.eqb_spec p q) as [->|Hne].
    + split; [auto | congruence].
    + rewrite IH. split; [auto | intros [H|H]; congruence || assumption].
Qed.

Lemma series_get_none (s : Series) (p : label) :
  series_get s p = None <-> ~ In p (series_index s).
Proof.
  rewrite <- series_get_some_in.
  destruct (series_get s p); split; intro H;
    solve [ congruence | exfalso; apply H; congruence | intro H'; now apply H' ].
Qed.

(** Lookup in a series given by a function of the label. *)
Lemma series_get_tabulate (g : label -> float) (l : list label) (p : label) :
  series_get (map (fun q => (q, g q)) l) p =
    if in_dec string_dec p l then Some (g p) else None.
Proof.
  induction l as [|q l IH]; simpl; [reflexivity|].
  destruct (String.eqb_spec p q) as [->|Hne].
  - destruct (string_dec q q); [reflexivity | congruence].
  - rewrite IH. destruct (string_dec q p); [congruence|].
    destruct (in_dec string_dec p l); reflexivity.
Qed.

Lemma series_get_zip (op : float -> float -> float) (a b : Series) (p : label) :
  series_index a = series_index b ->
  series_get
    (map (fun xy => (fst (fst xy), op (snd (fst xy)) (snd (snd xy))))
         (combine a b)) p =
    match series_get a p, series_get b p with
    | Some x, Some y => Some (op x y)
    | None, None => None
    | _, _ => Some nan
    end.
Proof.
  revert b. induction a as [|[q x] a IH]; intros [|[q' y] b] Hidx;
    simpl in *; try discriminate; [reflexivity|].
  injection Hidx as <- Hidx.
  destruct (String.eqb p q); [reflexivity | auto].
Qed.

(** A cell of the result of an aligned operation. *)
Lemma series_get_op (op : float -> float -> float) (a b : Series) (p : label) :
  series_get (series_op op a b) p =
    match series_get a p, series_get b p with
    | Some x, Some y => Some (op x y)
    | None, None => None
    | _, _ => Some nan
    end.
Proof.
  unfold series_op.
  destruct (list_eq_dec string_dec (series_index a) (series_index b)) as [E|_].
  - now apply series_get_zip.
  - rewrite (series_get_tabulate
               (fun l => match series_get a l, series_get b l with
                         | Some x, Some y => op x y
                         | _, _ => nan
                         end)).
    destruct (in_dec string_dec p _) as [Hin|Hout].
    + destruct (series_get a p) eqn:Ea, (series_get b p) eqn:Eb;
        try reflexivity.
      exfalso. apply in_app_or in Hin. destruct Hin as [Hin|Hin].
      * apply series_get_some_in in Hin. congruence.
      * apply filter_In in Hin. destruct Hin as [Hin _].
        apply series_get_some_in in Hin. congruence.
    + destruct (series_get a p) eqn:Ea.
      * exfalso. apply Hout, in_or_app. left.
        apply series_get_some_in. congruence.
      * destruct (series_get b p) eqn:Eb; [|reflexivity].
        exfalso. apply Hout, in_or_app. right. apply filter_In. split.
        -- apply series_get_some_in. congruence.
        -- apply series_get_none in Ea.
           destruct (existsb _ _) eqn:Ex; [|reflexivity].
           apply existsb_exists in Ex. destruct Ex as [q [Hq Hpq]].
           apply String.eqb_eq in Hpq. subst q. contradiction.
Qed.

Lemma series_get_combine_map (g : label -> float) (l : list label) (p : label) :
  In p l -> series_get (combine l (map g l)) p = Some (g p).
Proof.
  induction l as [|q l IH]; simpl; [tauto|].
  intros [->|Hin].
  - now rewrite String.eqb_refl.
  - destruct (String.eqb_spec p q) as [->|_]; auto.
Qed.

(** A cell of a row just assigned: the series' value, or NaN. *)
Lemma series_get_reindex (periods : list label) (s : Series) (p : label) :
  In p periods ->
  series_get (combine periods (reindex periods s)) p =
    Some (match series_get s p with Some v => v | None => nan end).
Proof.
  intro Hin. unfold reindex.
  now rewrite (series_get_combine_map
                 (fun p => match series_get s p with
                           | Some v => v | None => nan end)).
Qed.

Lemma series_get_combine_total (l : list label) (vs : list float) (p : label) :
  length vs = length l -> In p l ->
  exists v, series_get (combine l vs) p = Some v.
Proof.
  revert vs. induction l as [|q l IH]; intros [|v vs] Hlen Hin;
    simpl in *; try discriminate; try tauto.
  destruct (String.eqb_spec p q) as [->|Hne]; [eauto|].
  apply IH; [lia | destruct Hin; congruence].
Qed.

Lemma find_row_length (df : DataFrame) (n : label) (vs : list float) :
  well_formed df = true ->
  find_row n (rows df) = Some vs ->
  length vs = length (columns df).
Proof.
  unfold well_formed. generalize (columns df) as cols.
  induction (rows df) as [|[m ws] rs IH]; intros cols Hwf Hfind;
    simpl in *; [discriminate|].
  apply andb_prop in Hwf. destruct Hwf as [Hw Hwf].
  destruct (String.eqb n m).
  - injection Hfind as <-. now apply Nat.eqb_eq.
  - eauto.
Qed.

Lemma has_column_in (df : DataFrame) (p : label) :
  has_column df p = true <-> In p (columns df).
Proof.
  unfold has_column. rewrite existsb_exists. split.
  - intros [q [Hq Hpq]]. apply String.eqb_eq in Hpq. now subst q.
  - intro H. exists p. split; [assumption | apply String.eqb_refl].
Qed.

(** At a column of the frame a cell is the row's value there. *)
Lemma loc_at_in (df : DataFrame) (n p : label) :
  In p (columns df) ->
  loc_at df n p =
    Py.bind (loc df n)
            (fun s => match series_get s p with
                      | Some v => Ok v
                      | None => Raise (KeyError p)
                      end).
Proof.
  intro H. unfold loc_at. apply has_column_in in H. now rewrite H.
Qed.

Lemma loc_at_ok_in (df : DataFrame) (n p : label) (v : float) :
  loc_at df n p = Ok v -> In p (columns df).
Proof.
  unfold loc_at. destruct (has_column df p) eqn:E; [|discriminate].
  intros _. now apply has_column_in.
Qed.

(** In a well-formed frame every row has a cell at every column. *)
Lemma loc_at_total (df : DataFrame) (n p : label) :
  well_formed df = true -> has_row df n = true -> In p (columns df) ->
  exists v, loc_at df n p = Ok v.
Proof.
  intros Hwf Hrow Hin. rewrite (loc_at_in df n p Hin). revert Hrow.
  unfold has_row, loc. intro Hrow.
  destruct (find_row n (rows df)) as [vs|] eqn:E; [|discriminate].
  simpl. destruct (series_get_combine_total (columns df) vs p) as [v ->];
    eauto using find_row_length.
Qed.

End PandasFacts.

(** ** The ratio computation against the catalogue *)

Module RatioFacts.

Import Py Pandas Analyzer Catalogue PandasFacts.

(** The body of the [try] either stops at the first missing row with
    that row's [KeyError], or yields the table of the ten formulas. *)
Lemma ratio_rows_spec (income balance : DataFrame) :
  ratio_rows income balance =
    match first_missing income balance with
    | Some r => Raise (KeyError (snd r))
    | None => Ok (ratio_table income balance)
    end.
Proof.
  unfold ratio_rows, first_missing, ratio_table, present, has_row, loc.
  cbn [required_rows ratio_formula flat_map rows_of snd fst app find table
       map series_of].
  unfold row_series.
  destruct (find_row "Current Assets" (rows balance)); [|reflexivity].
  destruct (find_row "Current Liabilities" (rows balance)); [|reflexivity].
  destruct (find_row "Inventory" (rows balance)); [|reflexivity].
  destruct (find_row "Total Liabilities" (rows balance)); [|reflexivity].
  destruct (find_row "Total Equity" (rows balance)); [|reflexivity].
  destruct (find_row "Gross Profit" (rows income)); [|reflexivity].
  destruct (find_row "Revenue" (rows income)); [|reflexivity].
  destruct (find_row "Operating Income" (rows income)); [|reflexivity].
  destruct (find_row "Net Income" (rows income)); [|reflexivity].
  destruct (find_row "Total Assets" (rows balance)); [|reflexivity].
  destruct (find_row "Cost of Goods Sold" (rows income)); [|reflexivity].
  reflexivity.
Qed.


Lemma first_missing_none (income balance : DataFrame) :
  first_missing income balance = None <-> complete income balance.
Proof.
  unfold first_missing, complete. split.
  - intros H r Hin. apply (find_none _ _ H) in Hin.
    now apply negb_false_iff in Hin.
  - intro H. destruct (find _ _) as [r|] eqn:E; [|reflexivity].
    apply find_some in E. destruct E as [Hin Hneg].
    rewrite (H r Hin) in Hneg. discriminate.
Qed.


Lemma calculate_complete (self : FinancialStatementAnalyzer)
      (income balance : DataFrame) :
  income_statement self = Some income ->
  balance_sheet self = Some balance ->
  complete income balance ->
  calculate_financial_ratios self =
    mkRun (Some (ratio_table income balance))
          (set_ratios self (ratio_table income balance)) [] [].
Proof.
  intros Hi Hb Hc. apply first_missing_none in Hc.
  unfold calculate_financial_ratios.
  now rewrite Hi, Hb, ratio_rows_spec, Hc.
Qed.

(** A successful computation had both statements and produced the table
    of the catalogue. *)
Lemma calculate_returned_some (self : FinancialStatementAnalyzer)
      (rt : DataFrame) :
  returned (calculate_financial_ratios self) = Some rt ->
  exists income balance,
    income_statement self = Some income /\
    balance_sheet self = Some balance /\
    complete income balance /\
    rt = ratio_table income balance /\
    after (calculate_financial_ratios self) = set_ratios self rt.
Proof.
  unfold calculate_financial_ratios.
  destruct (income_statement self) as [income|] eqn:Hi;
    [|discriminate].
  destruct (balance_sheet self) as [balance|] eqn:Hb; [|discriminate].
  rewrite ratio_rows_spec.
  destruct (first_missing income balance) eqn:Hm; [discriminate|].
  simpl. intro H. injection H as <-.
  exists income, balance. repeat split; try reflexivity.
  now apply first_missing_none.
Qed.

(** A failed computation leaves the instance as it was. *)
Lemma calculate_returned_none (self : FinancialStatementAnalyzer) :
  returned (calculate_financial_ratios self) = None ->
  after (calculate_financial_ratios self) = self.
Proof.
  unfold calculate_financial_ratios.
  destruct (income_statement self), (balance_sheet self); try reflexivity.
  destruct (ratio_rows _ _); [discriminate | reflexivity].
Qed.

Lemma series_of_value (income balance : DataFrame) (f : formula)
      (p : label) (v : float) :
  value_at income balance f p = Some v ->
  series_get (series_of income balance f) p = Some v.
Proof.
  revert v. induction f as [s n|a IHa b IHb|a IHa b IHb]; intros v; simpl.
  - unfold loc_at, loc, row_series.
    destruct (has_column (table income balance s) p); [|discriminate].
    destruct (find_row n (rows (table income balance s))); simpl;
      [|discriminate].
    destruct (series_get _ p); congruence.
  - destruct (value_at income balance a p) as [x|]; [|discriminate].
    destruct (value_at income balance b p) as [y|]; [|discriminate].
    intro H. unfold series_div. rewrite series_get_op.
    now rewrite (IHa x eq_refl), (IHb y eq_refl).
  - destruct (value_at income balance a p) as [x|]; [|discriminate].
    destruct (value_at income balance b p) as [y|]; [|discriminate].
    intro H. unfold series_sub. rewrite series_get_op.
    now rewrite (IHa x eq_refl), (IHb y eq_refl).
Qed.


Lemma formula_rows_required (name : label) (f : formula) :
  In (name, f) ratio_formula ->
  forall r, In r (rows_of f) -> In r required_rows.
Proof.
  intros Hin r Hr. unfold required_rows. apply in_flat_map.
  exists (name, f). auto.
Qed.

(** The distinct names of the catalogue select their own formula. *)
Lemma ratio_table_row (income balance : DataFrame) (name : label) (f : formula) :
  In (name, f) ratio_formula ->
  find_row name (rows (ratio_table income balance)) =
    Some (reindex (columns income) (series_of income balance f)).
Proof.
  intro Hin. unfold ratio_formula in Hin. simpl in Hin.
  repeat (destruct Hin as [Hin|Hin];
          [injection Hin as <- <-; reflexivity|]).
  contradiction.
Qed.

(** Every cell of the table is the value of the row series of its
    formula at that period. *)
Lemma ratio_table_cell (income balance : DataFrame) (name : label)
      (f : formula) (p : label) :
  In (name, f) ratio_formula -> In p (columns income) ->
  loc_at (ratio_table income balance) name p =
    Ok (match series_get (series_of income balance f) p with
        | Some v => v
        | None => nan
        end).
Proof.
  intros Hin Hp.
  rewrite (loc_at_in (ratio_table income balance) name p Hp). unfold loc.
  rewrite (ratio_table_row income balance name f Hin). simpl.
  now rewrite series_get_reindex.
Qed.

Lemma ratio_table_value (income balance : DataFrame) (name : label)
      (f : formula) (p : label) (v : float) :
  In (name, f) ratio_formula -> In p (columns income) ->
  value_at income balance f p = Some v ->
  loc_at (ratio_table income balance) name p = Ok v.
Proof.
  intros Hin Hp Hv. rewrite (ratio_table_cell income balance name f p Hin Hp).
  now rewrite (series_of_value income balance f p v Hv).
Qed.

End RatioFacts.

(** ** The report against its layout *)

Module ReportFacts.

Import Py Pandas Analyzer Catalogue Layout PandasFacts RatioFacts.
Local Open Scope string_scope.

Lemma last_two_columns (rt : DataFrame) (cols : list label)
      (previous latest : label) :
  columns rt = (cols ++ [previous; latest])%list ->
  last_column rt = Ok latest /\ second_last_column rt = Some previous.
Proof.
  unfold last_column, second_last_column. intros ->.
  rewrite rev_app_distr. simpl. auto.
Qed.

Lemma only_column (rt : DataFrame) (p : label) :
  columns rt = [p] ->
  last_column rt = Ok p /\ second_last_column rt = None.
Proof.
  unfold last_column, second_last_column. intros ->. simpl. auto.
Qed.

(** With a ratio table in the slot the report is composed from it and
    from the income statement, without any computation. *)
Lemma generate_with_ratios (self : FinancialStatementAnalyzer)
      (rt : DataFrame) (today : string) (path : option string) :
  ratios self = Some rt ->
  generate_summary_report self today path =
    match report_lines rt (income_statement self) today with
    | Raise e => mkRun (Raise e) self [] []
    | Ok report =>
        if truthy path
        then mkRun (Ok (join LF report)) self
                   ["Report saved to "
                      ++ match path with Some p => p | None => "" end]
                   [(match path with Some p => p | None => "" end,
                     join LF report)]
        else mkRun (Ok (join LF report)) self [] []
    end.
Proof.
  intro H. unfold generate_summary_report. rewrite H. simpl. rewrite H.
  reflexivity.
Qed.

Lemma generate_with_ratios_returned (self : FinancialStatementAnalyzer)
      (rt : DataFrame) (today : string) (path : option string) :
  ratios self = Some rt ->
  returned (generate_summary_report self today path) =
    match report_lines rt (income_statement self) today with
    | Raise e => Raise e
    | Ok report => Ok (join LF report)
    end.
Proof.
  intro H. rewrite (generate_with_ratios self rt today path H).
  destruct (report_lines _ _ _); [|reflexivity].
  now destruct (truthy path).
Qed.

Lemma report_lines_without_previous (rt : DataFrame)
      (income : option DataFrame) (today : string) (latest : label)
      (x : figures) :
  last_column rt = Ok latest ->
  truthy (second_last_column rt) = false ->
  reads rt income latest x ->
  report_lines rt income today =
    Ok (key_metrics latest today x ++ insights)%list.
Proof.
  intros Hl Hp (H1 & H2 & H3 & H4 & H5 & H6 & H7).
  unfold report_lines.
  rewrite Hl, Hp. simpl. rewrite H1, H2. simpl.
  rewrite H3, H4, H5, H6, H7. reflexivity.
Qed.

Lemma report_lines_with_previous (rt : DataFrame)
      (income : option DataFrame) (today : string)
      (latest previous : label) (x : figures) (r0 n0 m0 : float) :
  last_column rt = Ok latest ->
  second_last_column rt = Some previous ->
  previous <> "" ->
  reads rt income latest x ->
  income_at income "Revenue" previous = Ok r0 ->
  income_at income "Net Income" previous = Ok n0 ->
  loc_at rt "Net Margin" previous = Ok m0 ->
  report_lines rt income today =
    Ok (key_metrics latest today x
          ++ period_over_period (revenue x / r0 - 1)%float
                                (net_income x / n0 - 1)%float
                                (net_margin x - m0)%float
          ++ insights)%list.
Proof.
  intros Hl Hp Hne (H1 & H2 & H3 & H4 & H5 & H6 & H7) Hr0 Hn0 Hm0.
  unfold report_lines.
  rewrite Hl, Hp. simpl.
  apply String.eqb_neq in Hne. rewrite Hne. simpl.
  rewrite H1, H2. simpl. rewrite H3, H4, H5, H6, H7. simpl.
  rewrite Hr0, Hn0. simpl. rewrite Hm0. reflexivity.
Qed.

(** Every cell of a computed ratio table can be read. *)
Lemma ratio_table_readable (income balance : DataFrame) (name p : label) :
  In name ratio_names -> In p (columns income) ->
  exists v, loc_at (ratio_table income balance) name p = Ok v.
Proof.
  intros Hn Hp. unfold ratio_names in Hn. simpl in Hn.
  repeat (destruct Hn as [<-|Hn];
          [eexists; eapply ratio_table_cell; [simpl; tauto | assumption]|]).
  contradiction.
Qed.

Lemma reads_computed (income0 balance0 : DataFrame)
      (income : option DataFrame) (latest : label) (r n : float) :
  In latest (columns income0) ->
  income_at income "Revenue" latest = Ok r ->
  income_at income "Net Income" latest = Ok n ->
  exists x,
    reads (ratio_table income0 balance0) income latest x /\
    revenue x = r /\ net_income x = n.
Proof.
  intros Hp Hr Hn.
  destruct (ratio_table_readable income0 balance0 "Net Margin" latest)
    as [nm Hnm]; [simpl; tauto | assumption |].
  destruct (ratio_table_readable income0 balance0 "Current Ratio" latest)
    as [cr Hcr]; [simpl; tauto | assumption |].
  destruct (ratio_table_readable income0 balance0 "Quick Ratio" latest)
    as [qr Hqr]; [simpl; tauto | assumption |].
  destruct (ratio_table_readable income0 balance0 "Return on Assets" latest)
    as [roa Hroa]; [simpl; tauto | assumption |].
  destruct (ratio_table_readable income0 balance0 "Return on Equity" latest)
    as [roe Hroe]; [simpl; tauto | assumption |].
  exists (mkFigures r n nm cr qr roa roe). unfold reads. simpl. tauto.
Qed.

(** The income cells the report needs exist in the statement the ratios
    were computed from. *)
Lemma income_cells_after_computation (income balance : DataFrame) (p : label) :
  well_formed income = true -> complete income balance ->
  In p (columns income) ->
  exists r n,
    income_at (Some income) "Revenue" p = Ok r /\
    income_at (Some income) "Net Income" p = Ok n.
Proof.
  intros Hwf Hc Hp.
  destruct (loc_at_total income "Revenue" p) as [r Hr]; trivial.
  { apply (Hc (Income, "Revenue")). unfold required_rows. simpl. tauto. }
  destruct (loc_at_total income "Net Income" p) as [n Hn]; trivial.
  { apply (Hc (Income, "Net Income")). unfold required_rows. simpl. tauto. }
  exists r, n. auto.
Qed.

(** A table left by an earlier successful computation yields a report
    as soon as the income statement at hand has the revenue and net
    income of the periods the report reads. *)
Lemma report_lines_total (self0 : FinancialStatementAnalyzer)
      (rt : DataFrame) (income : option DataFrame) (today : string) :
  returned (calculate_financial_ratios self0) = Some rt ->
  columns rt <> [] ->
  (forall p, In p (report_periods rt) ->
             exists r n,
               income_at income "Revenue" p = Ok r /\
               income_at income "Net Income" p = Ok n) ->
  exists latest x tail,
    last_column rt = Ok latest /\
    reads rt income latest x /\
    report_lines rt income today =
      Ok (key_metrics latest today x ++ tail)%list.
Proof.
  intros H0 Hcols Hcells.
  destruct (calculate_returned_some self0 rt H0)
    as (income0 & balance0 & _ & _ & _ & -> & _).
  set (rt := ratio_table income0 balance0) in *.
  assert (Hin : forall p, In p (rev (columns rt)) -> In p (columns income0))
    by (intros p Hp; now apply in_rev).
  assert (Hl : forall latest rest,
             rev (columns rt) = latest :: rest -> last_column rt = Ok latest)
    by (unfold last_column; now intros ? ? ->).
  assert (Hs : forall latest rest,
             rev (columns rt) = latest :: rest ->
             second_last_column rt = hd_error rest)
    by (unfold second_last_column; intros ? [|? ?] ->; reflexivity).
  unfold report_periods in Hcells.
  destruct (rev (columns rt)) as [|latest rest] eqn:Hrev.
  { exfalso. apply Hcols. rewrite <- (rev_involutive (columns rt)).
    now rewrite Hrev. }
  specialize (Hl latest rest eq_refl). specialize (Hs latest rest eq_refl).
  destruct (Hcells latest) as (r & n & Hr & Hn); [simpl; auto|].
  destruct (reads_computed income0 balance0 income latest r n)
    as (x & Hx & _ & _); trivial; [apply Hin; simpl; auto|].
  fold rt in Hx. exists latest, x.
  destruct rest as [|previous rest']; simpl in Hs.
  - exists insights. split; [assumption|]. split; [assumption|].
    apply report_lines_without_previous; trivial. now rewrite Hs.
  - destruct (String.eqb_spec previous "") as [->|Hne].
    + exists insights. split; [assumption|]. split; [assumption|].
      apply report_lines_without_previous; trivial. now rewrite Hs.
    + destruct (Hcells previous) as (r0 & n0 & Hr0 & Hn0).
      { simpl. apply String.eqb_neq in Hne. rewrite Hne. simpl. auto. }
      destruct (ratio_table_readable income0 balance0 "Net Margin" previous)
        as [m0 Hm0]; [simpl; tauto | apply Hin; simpl; auto |].
      exists (period_over_period (revenue x / r0 - 1)%float
                                 (net_income x / n0 - 1)%float
                                 (net_margin x - m0)%float
                ++ insights)%list.
      split; [assumption|]. split; [assumption|].
      now apply (report_lines_with_previous rt income today latest previous
                   x r0 n0 m0).
Qed.

(** Conversely, a report is composed only if the table has a period and
    the income statement has the revenue and net income of the periods
    the report reads. *)
Lemma report_lines_ok_reads (rt : DataFrame) (income : option DataFrame)
      (today : string) (lines : list string) :
  report_lines rt income today = Ok lines ->
  columns rt <> [] /\
  (forall p, In p (report_periods rt) ->
             exists r n,
               income_at income "Revenue" p = Ok r /\
               income_at income "Net Income" p = Ok n).
Proof.
  unfold report_lines, last_column, second_last_column, report_periods.
  destruct (rev (columns rt)) as [|latest rest] eqn:Hrev;
    [intro H; discriminate H|].
  intro H. split.
  { intro E. rewrite E in Hrev. discriminate. }
  revert H. cbv beta iota zeta delta [bind].
  destruct (income_at income "Revenue" latest) as [r|] eqn:Hr;
    [|intro H; discriminate H].
  destruct (income_at income "Net Income" latest) as [n|] eqn:Hn;
    [|intro H; discriminate H].
  destruct (loc_at rt "Net Margin" latest); [|intro H; discriminate H].
  destruct (loc_at rt "Current Ratio" latest); [|intro H; discriminate H].
  destruct (loc_at rt "Quick Ratio" latest); [|intro H; discriminate H].
  destruct (loc_at rt "Return on Assets" latest); [|intro H; discriminate H].
  destruct (loc_at rt "Return on Equity" latest); [|intro H; discriminate H].
  destruct rest as [|previous rest'].
  - intros _ p [<-|[]]. eauto.
  - destruct (truthy (Some previous)).
    + destruct (income_at income "Revenue" previous) as [r0|] eqn:Hr0;
        [|intro H; discriminate H].
      destruct (income_at income "Net Income" previous) as [n0|] eqn:Hn0;
        [|intro H; discriminate H].
      intros _ p [<-|[<-|[]]]; eauto.
    + intros _ p [<-|[]]. eauto.
Qed.

End ReportFacts.

(** ** Binary64 division by zero *)

Module FloatFacts.

Local Open Scope float_scope.

Lemma zero_spec (d : float) :
  is_zero d = true -> exists s, Prim2SF d = S754_zero s.
Proof.
  unfold is_zero. rewrite eqb_spec.
  change (Prim2SF zero) with (S754_zero false).
  destruct (Prim2SF d) as [s|s| |s m e]; [eauto| | |];
    try destruct s; discriminate.
Qed.

Lemma nan_or_infinity_spec (z : float) :
  Prim2SF z = S754_nan \/ (exists s, Prim2SF z = S754_infinity s) ->
  is_nan z || is_infinity z = true.
Proof.
  unfold is_nan, is_infinity. rewrite !eqb_spec, abs_spec.
  change (Prim2SF infinity) with (S754_infinity false).
  intros [->|[s ->]]; [reflexivity | now destruct s].
Qed.

(** Dividing by a zero of either sign gives an infinity or NaN. *)
Lemma div_by_zero (x d : float) :
  is_zero d = true -> is_nan (x / d) || is_infinity (x / d) = true.
Proof.
  intro Hd. destruct (zero_spec d Hd) as [s Hs].
  apply nan_or_infinity_spec. rewrite div_spec, Hs.
  unfold SF64div, SFdiv.
  destruct (Prim2SF x); eauto.
Qed.

End FloatFacts.

(** ** Properties of the ratio computation *)

Module RatioEngine.

Import Py Pandas Analyzer Catalogue Sample PandasFacts RatioFacts FloatFacts.
Local Open Scope string_scope.

(** C4.  When the income statement or the balance sheet is absent, the
    ratio computation returns nothing, prints that both statements are
    required, and leaves the analyzer (its ratio slot included) as it
    was: nothing is computed and no partial table is returned. *)
Theorem absent_statement_no_computation (self : FinancialStatementAnalyzer) :
  income_statement self = None \/ balance_sheet self = None ->
  calculate_financial_ratios self =
    mkRun None self
      ["Income statement and balance sheet are required to calculate ratios"]
      [].
Proof.
  unfold calculate_financial_ratios.
  intros [H|H]; rewrite H; [reflexivity|].
  now destruct (income_statement self).
Qed.

Lemma absent_statement_no_computation_witness :
  calculate_financial_ratios (analyzer (Some income_complete) None) =
    mkRun None (analyzer (Some income_complete) None)
      ["Income statement and balance sheet are required to calculate ratios"]
      [].
Proof.
  apply absent_statement_no_computation. right. reflexivity.
Defined.






(** C9.  The value returned by the ratio computation, and what it
    prints and writes, are determined by the income statement and the
    balance sheet alone: two analyzers that agree on these two, whatever
    their cash flow statement and their current ratio slot, get the same
    result. *)
Theorem computation_depends_on_statements_only
        (self1 self2 : FinancialStatementAnalyzer) :
  income_statement self1 = income_statement self2 ->
  balance_sheet self1 = balance_sheet self2 ->
  returned (calculate_financial_ratios self1) =
    returned (calculate_financial_ratios self2) /\
  printed (calculate_financial_ratios self1) =
    printed (calculate_financial_ratios self2) /\
  written (calculate_financial_ratios self1) =
    written (calculate_financial_ratios self2) /\
  (returned (calculate_financial_ratios self1) <> None ->
   ratios (after (calculate_financial_ratios self1)) =
     ratios (after (calculate_financial_ratios self2))).
Proof.
  intros Hi Hb. unfold calculate_financial_ratios. rewrite Hi, Hb.
  destruct (income_statement self2) as [income|],
           (balance_sheet self2) as [balance|];
    try (simpl; intuition congruence).
  destruct (ratio_rows income balance); simpl; intuition congruence.
Qed.

Lemma computation_depends_on_statements_only_witness :
  returned (calculate_financial_ratios
              (analyzer (Some income_complete) (Some balance_main))) =
    returned (calculate_financial_ratios
                {| income_statement := Some income_complete;
                   balance_sheet := Some balance_main;
                   cash_flow := Some income_main;
                   ratios := Some balance_main |}).
Proof.
  exact (proj1 (computation_depends_on_statements_only
                  (analyzer (Some income_complete) (Some balance_main))
                  {| income_statement := Some income_complete;
                     balance_sheet := Some balance_main;
                     cash_flow := Some income_main;
                     ratios := Some balance_main |}
                  eq_refl eq_refl)).
Defined.

(** C8.  For statements with unique labels and all required rows
    present, the computation returns a table in which, for every period
    where Current Assets is 500000 and Current Liabilities is 400000, the
    Current Ratio cell is the binary64 number 1.25, and, independently,
    for every period where Revenue is 1000000 and Gross Profit is 400000,
    the Gross Margin cell is the binary64 number written 0.40 (the one
    nearest to two fifths). *)
Theorem current_ratio_and_gross_margin_exact
        (self : FinancialStatementAnalyzer) (income balance : DataFrame) :
  income_statement self = Some income ->
  balance_sheet self = Some balance ->
  unique_labels income = true ->
  unique_labels balance = true ->
  complete income balance ->
  exists rt,
    returned (calculate_financial_ratios self) = Some rt /\
    (forall p,
        In p (columns income) ->
        loc_at balance "Current Assets" p = Ok 500000%float ->
        loc_at balance "Current Liabilities" p = Ok 400000%float ->
        loc_at rt "Current Ratio" p = Ok 1.25%float) /\
    (forall p,
        loc_at income "Revenue" p = Ok 1000000%float ->
        loc_at income "Gross Profit" p = Ok 400000%float ->
        loc_at rt "Gross Margin" p = Ok 0.40%float).
Proof.
  intros Hi Hb _ _ Hc.
  exists (ratio_table income balance).
  rewrite (calculate_complete self income balance Hi Hb Hc).
  split; [reflexivity|]. split.
  - intros p Hp Hca Hcl.
    apply (ratio_table_value income balance "Current Ratio"
             (Div (Row Balance "Current Assets")
                  (Row Balance "Current Liabilities")));
      [simpl; tauto | assumption |].
    simpl. now rewrite Hca, Hcl.
  - intros p Hrev Hgp.
    apply (ratio_table_value income balance "Gross Margin"
             (Div (Row Income "Gross Profit") (Row Income "Revenue")));
      [simpl; tauto | exact (loc_at_ok_in income _ p _ Hrev) |].
    simpl. now rewrite Hgp, Hrev.
Qed.

(** In the sample the first quarter has the claim's current assets and
    liabilities, and [income_mixed] has the claim's revenue and gross
    profit in its second quarter only. *)
Lemma current_ratio_and_gross_margin_exact_witness :
  exists rt,
    returned (calculate_financial_ratios
                (analyzer (Some income_mixed) (Some balance_main))) =
      Some rt /\
    loc_at rt "Current Ratio" "2023-Q1" = Ok 1.25%float /\
    loc_at rt "Gross Margin" "2023-Q2" = Ok 0.40%float.
Proof.
  destruct (current_ratio_and_gross_margin_exact
              (analyzer (Some income_mixed) (Some balance_main))
              income_mixed balance_main eq_refl eq_refl eq_refl eq_refl)
    as (rt & Hrun & Hcr & Hgm).
  - intros r Hr. unfold required_rows in Hr. simpl in Hr.
    repeat (destruct Hr as [<-|Hr]; [reflexivity|]). contradiction.
  - exists rt. split; [assumption|]. split.
    + apply Hcr; [simpl; tauto | reflexivity | reflexivity].
    + apply Hgm; reflexivity.
Defined.

(** C5.  A zero denominator does not make the computation fail.  For
    statements with unique labels and all required rows present, if the denominator of a ratio is zero (of
    either sign) in some period, the computation still returns its table,
    and the cell of that ratio in that period is an infinity or NaN: it is
    the binary64 quotient of the numerator by that zero whenever the
    numerator has a value there. *)
Theorem zero_denominator_propagates
        (self : FinancialStatementAnalyzer) (income balance : DataFrame)
        (name : label) (num den : formula) (p : label) (d : float) :
  income_statement self = Some income ->
  balance_sheet self = Some balance ->
  unique_labels income = true ->
  unique_labels balance = true ->
  complete income balance ->
  In (name, Div num den) ratio_formula ->
  In p (columns income) ->
  value_at income balance den p = Some d ->
  is_zero d = true ->
  exists rt v,
    calculate_financial_ratios self =
      mkRun (Some rt) (set_ratios self rt) [] [] /\
    loc_at rt name p = Ok v /\
    is_nan v || is_infinity v = true /\
    (forall x, value_at income balance num p = Some x -> v = (x / d)%float).
Proof.
  intros Hi Hb _ _ Hc Hin Hp Hd Hz.
  exists (ratio_table income balance).
  rewrite (calculate_complete self income balance Hi Hb Hc).
  rewrite (ratio_table_cell income balance name (Div num den) p Hin Hp).
  simpl. unfold series_div. rewrite series_get_op.
  rewrite (series_of_value income balance den p d Hd).
  destruct (series_get (series_of income balance num) p) as [x|] eqn:Hx.
  - exists (x / d)%float. repeat split; [now apply div_by_zero|].
    intros x' Hx'. apply series_of_value in Hx'. congruence.
  - exists nan. repeat split.
    intros x' Hx'. apply series_of_value in Hx'. congruence.
Qed.

Lemma zero_denominator_propagates_witness :
  exists rt,
    returned (calculate_financial_ratios
                (analyzer (Some income_complete)
                          (Some balance_no_liabilities))) = Some rt /\
    loc_at rt "Current Ratio" "2023-Q2" = Ok infinity.
Proof.
  destruct (zero_denominator_propagates
              (analyzer (Some income_complete) (Some balance_no_liabilities))
              income_complete balance_no_liabilities
              "Current Ratio" (Row Balance "Current Assets")
              (Row Balance "Current Liabilities") "2023-Q2" 0%float
              eq_refl eq_refl eq_refl eq_refl)
    as [rt [v [Hrun [Hcell [_ Hv]]]]];
    try solve [ reflexivity | simpl; tauto ].
  - intros r Hr. unfold required_rows in Hr. simpl in Hr.
    repeat (destruct Hr as [<-|Hr]; [reflexivity|]). contradiction.
  - exists rt. rewrite Hrun, Hcell. split; [reflexivity|].
    now rewrite (Hv 520000%float eq_refl).
Defined.

End RatioEngine.

(** ** Properties of the summary report *)

Module ReportComposer.

Import Py Pandas Analyzer Catalogue Layout Sample.
Import PandasFacts RatioFacts ReportFacts.
Local Open Scope string_scope.

(** C2, as stated, fails: an analyzer holding the complete sample
    statements and an empty ratio slot gets a full report, and the ratio
    slot is filled by the report request itself. *)
Lemma report_request_computes_ratios :
  ratios (analyzer (Some income_complete) (Some balance_main)) = None /\
  returned (generate_summary_report
              (analyzer (Some income_complete) (Some balance_main))
              "2025-09-09" None) = Ok (join LF sample_report) /\
  ratios (after (generate_summary_report
                   (analyzer (Some income_complete) (Some balance_main))
                   "2025-09-09" None)) =
    returned (calculate_financial_ratios
                (analyzer (Some income_complete) (Some balance_main))) /\
  returned (calculate_financial_ratios
              (analyzer (Some income_complete) (Some balance_main))) <> None.
Proof.
  split; [reflexivity|]. split; [vm_compute; reflexivity|].
  split; [vm_compute; reflexivity|]. vm_compute. discriminate.
Qed.

(** C2, amended.  With an empty ratio slot the report request first runs
    the ratio computation on the analyzer's statements.  When that
    computation fails the request returns the fixed text
    "Unable to generate report without financial ratios." and changes
    nothing; when it succeeds the table it returned is stored in the
    slot and the report is the one composed from that table. *)
Theorem report_without_ratios_computes_first
        (self : FinancialStatementAnalyzer) (today : string)
        (path : option string) :
  ratios self = None ->
  (returned (calculate_financial_ratios self) = None ->
   generate_summary_report self today path =
     mkRun (Ok no_ratios_reply) self
           (printed (calculate_financial_ratios self)) []) /\
  (forall rt,
      returned (calculate_financial_ratios self) = Some rt ->
      ratios (after (generate_summary_report self today path)) = Some rt /\
      returned (generate_summary_report self today path) =
        returned (generate_summary_report (set_ratios self rt) today path)).
Proof.
  intro Hnone. split.
  - intro Hfail. unfold generate_summary_report. rewrite Hnone.
    rewrite (calculate_returned_none self Hfail). now rewrite Hnone.
  - intros rt Hok.
    destruct (calculate_returned_some self rt Hok)
      as (income & balance & _ & _ & _ & _ & Hafter).
    rewrite (generate_with_ratios_returned (set_ratios self rt) rt today path
               eq_refl).
    unfold generate_summary_report. rewrite Hnone, Hafter. simpl.
    destruct (report_lines rt (income_statement self) today);
      [destruct (truthy path)|]; auto.
Qed.

Lemma report_without_ratios_computes_first_witness :
  generate_summary_report (analyzer (Some income_main) (Some balance_main))
                          "2025-09-09" None =
    mkRun (Ok no_ratios_reply)
          (analyzer (Some income_main) (Some balance_main))
          ["Error calculating ratios: 'Operating Income'"] [].
Proof.
  exact (proj1 (report_without_ratios_computes_first
                  (analyzer (Some income_main) (Some balance_main))
                  "2025-09-09" None eq_refl) eq_refl).
Defined.

(** C7.  After a successful ratio computation on a well-formed income
    statement: when the ratio table has exactly one period, the report
    request succeeds and its lines are the header, the revenue and
    profit, liquidity and profitability sections of that period and the
    insights, with no "Period-over-Period Changes" line among them; and
    when the table has at least two periods the latest period is its
    last column and the previous period its second-to-last one. *)
Theorem single_period_report_omits_changes
        (self0 : FinancialStatementAnalyzer) (income rt : DataFrame)
        (today : string) (path : option string) :
  income_statement self0 = Some income ->
  well_formed income = true ->
  returned (calculate_financial_ratios self0) = Some rt ->
  (forall p,
      columns rt = [p] ->
      exists x lines,
        reads rt (Some income) p x /\
        lines = (header p today
                   ++ revenue_and_profit (revenue x) (net_income x)
                                         (net_margin x)
                   ++ liquidity (current_ratio x) (quick_ratio x)
                   ++ profitability (return_on_assets x) (return_on_equity x)
                   ++ insights)%list /\
        returned (generate_summary_report
                    (after (calculate_financial_ratios self0)) today path) =
          Ok (join LF lines) /\
        ~ In changes_heading lines) /\
  (forall cols previous latest,
      columns rt = (cols ++ [previous; latest])%list ->
      last_column rt = Ok latest /\ second_last_column rt = Some previous).
Proof.
  intros Hi Hwf Hok. split; [|intros; eapply last_two_columns; eauto].
  intros p Hcols.
  destruct (calculate_returned_some self0 rt Hok)
    as (income' & balance & Hi' & _ & Hc & Hrt & Hafter).
  rewrite Hi in Hi'. injection Hi' as <-. subst rt.
  change (columns (ratio_table income balance)) with (columns income) in Hcols.
  assert (Hp : In p (columns income)) by (rewrite Hcols; simpl; auto).
  destruct (income_cells_after_computation income balance p Hwf Hc Hp)
    as (r & n & Hr & Hn).
  destruct (reads_computed income balance (Some income) p r n Hp Hr Hn)
    as (x & Hx & _ & _).
  destruct (only_column (ratio_table income balance) p Hcols) as [Hl Hs].
  exists x. eexists. split; [exact Hx|]. split; [reflexivity|]. split.
  - rewrite Hafter.
    rewrite (generate_with_ratios_returned
               (set_ratios self0 (ratio_table income balance))
               (ratio_table income balance) today path eq_refl).
    simpl income_statement. rewrite Hi.
    rewrite (report_lines_without_previous _ _ today p x Hl);
      [reflexivity | now rewrite Hs | exact Hx].
  - unfold changes_heading. simpl.
    intro H. repeat (destruct H as [H|H]; [discriminate H|]). exact H.
Qed.

Lemma single_period_report_omits_changes_witness :
  returned (generate_summary_report
              (after (calculate_financial_ratios
                        (analyzer (Some (first_quarter income_complete))
                                  (Some (first_quarter balance_main)))))
              "2025-09-09" None) =
    Ok (join LF
          [ "# Financial Statement Analysis Summary Report";
            "## Period: 2023-Q1";
            "Generated on: 2025-09-09" ++ LF;
            "## Key Financial Metrics" ++ LF;
            "### Revenue and Profit";
            "- Revenue: $1,000,000.00";
            "- Net Income: $150,000.00";
            "- Net Margin: 15.00%" ++ LF;
            "### Liquidity";
            "- Current Ratio: 1.25";
            "- Quick Ratio: 1.00" ++ LF;
            "### Profitability";
            "- Return on Assets (ROA): 7.14%";
            "- Return on Equity (ROE): 16.67%" ++ LF;
            "## Insights and Recommendations" ++ LF;
            "1. Placeholder for automated insights based on financial analysis";
            "2. Placeholder for recommendations based on trend analysis";
            "3. Placeholder for risk assessment" ++ LF ]).
Proof.
  destruct (proj1 (single_period_report_omits_changes
                     (analyzer (Some (first_quarter income_complete))
                               (Some (first_quarter balance_main)))
                     (first_quarter income_complete)
                     (ratio_table (first_quarter income_complete)
                                  (first_quarter balance_main))
                     "2025-09-09" None eq_refl eq_refl eq_refl)
                  "2023-Q1" eq_refl)
    as ([r n nm cr qr roa roe] & lines & Hx & -> & -> & _).
  destruct Hx as (H1 & H2 & H3 & H4 & H5 & H6 & H7).
  cbn [revenue net_income net_margin current_ratio quick_ratio
       return_on_assets return_on_equity] in *.
  vm_compute in H1, H2, H3, H4, H5, H6, H7.
  injection H1 as <-. injection H2 as <-. injection H3 as <-.
  injection H4 as <-. injection H5 as <-. injection H6 as <-.
  injection H7 as <-.
  vm_compute. reflexivity.
Defined.

(** C6.  After a successful ratio computation on a well-formed income
    statement with unique labels and at least two periods (the
    second-to-last one with a non-empty label), the report has a period-over-period section in which
    Revenue Growth is revenue[latest] / revenue[previous] - 1, Net Income
    Growth is the same expression on net income, and Net Margin Change is
    the difference netmargin[latest] - netmargin[previous]; each is shown
    as a percentage with two places.  With revenue 1000000 then 1050000
    the growth is 0.05 up to binary64 rounding (less than 1e-16 away) and
    is shown as "5.00%". *)
Theorem period_over_period_figures
        (self0 : FinancialStatementAnalyzer) (income rt : DataFrame)
        (today : string) (path : option string)
        (cols : list label) (previous latest : label) :
  income_statement self0 = Some income ->
  well_formed income = true ->
  unique_labels income = true ->
  returned (calculate_financial_ratios self0) = Some rt ->
  columns income = (cols ++ [previous; latest])%list ->
  previous <> "" ->
  exists x r0 n0 m0,
    reads rt (Some income) latest x /\
    loc_at income "Revenue" previous = Ok r0 /\
    loc_at income "Net Income" previous = Ok n0 /\
    loc_at rt "Net Margin" previous = Ok m0 /\
    returned (generate_summary_report
                (after (calculate_financial_ratios self0)) today path) =
      Ok (join LF
            (key_metrics latest today x
               ++ [ changes_heading;
                    ("- Revenue Growth: "
                       ++ Fmt.percent2 (revenue x / r0 - 1)%float)%string;
                    ("- Net Income Growth: "
                       ++ Fmt.percent2 (net_income x / n0 - 1)%float)%string;
                    ("- Net Margin Change: "
                       ++ Fmt.percent2 (net_margin x - m0)%float
                       ++ " points" ++ LF)%string ]
               ++ insights)%list) /\
    (r0 = 1000000%float -> revenue x = 1050000%float ->
     PrimFloat.ltb (abs ((revenue x / r0 - 1) - 0.05)) 1e-16 = true /\
     Fmt.percent2 (revenue x / r0 - 1)%float = "5.00%").
Proof.
  intros Hi Hwf _ Hok Hcols Hne.
  destruct (calculate_returned_some self0 rt Hok)
    as (income' & balance & Hi' & _ & Hc & Hrt & Hafter).
  rewrite Hi in Hi'. injection Hi' as <-. subst rt.
  assert (Hlatest : In latest (columns income))
    by (rewrite Hcols; apply in_or_app; simpl; auto).
  assert (Hprevious : In previous (columns income))
    by (rewrite Hcols; apply in_or_app; simpl; auto).
  destruct (income_cells_after_computation income balance latest Hwf Hc Hlatest)
    as (r & n & Hr & Hn).
  destruct (income_cells_after_computation income balance previous Hwf Hc
              Hprevious) as (r0 & n0 & Hr0 & Hn0).
  destruct (reads_computed income balance (Some income) latest r n
              Hlatest Hr Hn) as (x & Hx & _ & _).
  destruct (ratio_table_readable income balance "Net Margin" previous)
    as [m0 Hm0]; [simpl; tauto | assumption |].
  destruct (last_two_columns (ratio_table income balance) cols previous latest
              Hcols) as [Hl Hs].
  exists x, r0, n0, m0.
  split; [exact Hx|]. split; [exact Hr0|]. split; [exact Hn0|].
  split; [exact Hm0|]. split.
  - rewrite Hafter.
    rewrite (generate_with_ratios_returned
               (set_ratios self0 (ratio_table income balance))
               (ratio_table income balance) today path eq_refl).
    simpl income_statement. rewrite Hi.
    now rewrite (report_lines_with_previous _ _ today latest previous x
                   r0 n0 m0 Hl Hs Hne Hx Hr0 Hn0 Hm0).
  - intros -> ->. split; vm_compute; reflexivity.
Qed.

Lemma period_over_period_figures_witness :
  returned (generate_summary_report computed "2025-09-09" None) =
    Ok (join LF sample_report).
Proof.
  destruct (period_over_period_figures
              (analyzer (Some income_complete) (Some balance_main))
              income_complete
              (ratio_table income_complete balance_main)
              "2025-09-09" None [] "2023-Q1" "2023-Q2"
              eq_refl eq_refl eq_refl eq_refl eq_refl)
    as ([r n nm cr qr roa roe] & r0 & n0 & m0
        & Hx & Hr0 & Hn0 & Hm0 & Hreport & _).
  - discriminate.
  - destruct Hx as (H1 & H2 & H3 & H4 & H5 & H6 & H7).
    cbn [revenue net_income net_margin current_ratio quick_ratio
         return_on_assets return_on_equity] in *.
    vm_compute in H1, H2, H3, H4, H5, H6, H7, Hr0, Hn0, Hm0.
    injection H1 as <-. injection H2 as <-. injection H3 as <-.
    injection H4 as <-. injection H5 as <-. injection H6 as <-.
    injection H7 as <-. injection Hr0 as <-. injection Hn0 as <-.
    injection Hm0 as <-.
    unfold computed. rewrite Hreport. vm_compute. reflexivity.
Defined.

(** C10, as stated, fails: [reloaded] holds the ratio table of an earlier
    successful computation and an income statement without "Revenue".
    The ratio computation fails and leaves the table in place, but the
    report request that follows raises [KeyError('Revenue')] instead of
    returning a report. *)
Lemma stale_ratios_report_raises :
  ratios reloaded =
    returned (calculate_financial_ratios
                (analyzer (Some income_complete) (Some balance_main))) /\
  calculate_financial_ratios reloaded =
    mkRun None reloaded ["Error calculating ratios: 'Revenue'"] [] /\
  generate_summary_report reloaded "2025-09-09" None =
    mkRun (Raise (KeyError "Revenue")) reloaded [] [].
Proof.
  split; [reflexivity|]. split; vm_compute; reflexivity.
Qed.

(** C10, amended.  When a ratio computation fails on an analyzer whose slot
    holds the table of an earlier successful computation, the analyzer,
    and with it that table, is left unchanged, and a report request that
    follows leaves it unchanged too.  For a stale table with distinct
    periods and a current income statement with unique labels, that
    request computes no ratios and does not answer that ratios are
    missing: it is composed from the stale table and the current income
    statement.  It returns a report, whose ratio figures are those of the
    stale table's last period, if the table has a period and the current
    income statement has the revenue and net income of the periods the
    report reads; otherwise it raises the failed lookup and returns no
    report. *)
Theorem failed_computation_keeps_stale_ratios
        (self0 self : FinancialStatementAnalyzer) (rt : DataFrame)
        (today : string) (path : option string) :
  returned (calculate_financial_ratios self0) = Some rt ->
  ratios self = Some rt ->
  returned (calculate_financial_ratios self) = None ->
  after (calculate_financial_ratios self) = self /\
  ratios (after (calculate_financial_ratios self)) = Some rt /\
  after (generate_summary_report
           (after (calculate_financial_ratios self)) today path) = self /\
  (distinct (columns rt) = true ->
   (forall income, income_statement self = Some income ->
                   unique_labels income = true) ->
   returned (generate_summary_report
               (after (calculate_financial_ratios self)) today path) =
     match report_lines rt (income_statement self) today with
     | Raise e => Raise e
     | Ok report => Ok (join LF report)
     end /\
   ((columns rt <> [] /\
     forall p, In p (report_periods rt) ->
               exists r n,
                 income_at (income_statement self) "Revenue" p = Ok r /\
                 income_at (income_statement self) "Net Income" p = Ok n) ->
    exists latest x tail,
      last_column rt = Ok latest /\
      reads rt (income_statement self) latest x /\
      returned (generate_summary_report
                  (after (calculate_financial_ratios self)) today path) =
        Ok (join LF (key_metrics latest today x ++ tail)%list)) /\
   (~ (columns rt <> [] /\
       forall p, In p (report_periods rt) ->
                 exists r n,
                   income_at (income_statement self) "Revenue" p = Ok r /\
                   income_at (income_statement self) "Net Income" p = Ok n) ->
    exists e,
      returned (generate_summary_report
                  (after (calculate_financial_ratios self)) today path) =
        Raise e)).
Proof.
  intros H0 Hslot Hfail.
  pose proof (calculate_returned_none self Hfail) as Hafter.
  rewrite Hafter.
  pose proof (generate_with_ratios_returned self rt today path Hslot) as Hret.
  split; [reflexivity|]. split; [assumption|]. split.
  - rewrite (generate_with_ratios self rt today path Hslot).
    destruct (report_lines rt (income_statement self) today);
      [destruct (truthy path)|]; reflexivity.
  - intros _ _. split; [assumption|]. split.
    + intros [Hcols Hcells].
      destruct (report_lines_total self0 rt (income_statement self) today
                  H0 Hcols Hcells) as (latest & x & tail & Hl & Hx & Hlines).
      exists latest, x, tail. rewrite Hret, Hlines. auto.
    + intro Hnot. rewrite Hret.
      destruct (report_lines rt (income_statement self) today)
        as [lines|e] eqn:Hlines; [|eauto].
      exfalso. apply Hnot.
      exact (report_lines_ok_reads rt (income_statement self) today lines
               Hlines).
Qed.

(** The balance sheet loses its "Inventory" row after a successful
    computation: the next computation fails, and the report is still the
    one of the earlier table. *)
Lemma failed_computation_keeps_stale_ratios_witness :
  returned (generate_summary_report
              (after (calculate_financial_ratios
                        {| income_statement := Some income_complete;
                           balance_sheet := Some balance_no_inventory;
                           cash_flow := None;
                           ratios := ratios computed |}))
              "2025-09-09" None) = Ok (join LF sample_report).
Proof.
  destruct (failed_computation_keeps_stale_ratios
              (analyzer (Some income_complete) (Some balance_main))
              {| income_statement := Some income_complete;
                 balance_sheet := Some balance_no_inventory;
                 cash_flow := None;
                 ratios := ratios computed |}
              (ratio_table income_complete balance_main)
              "2025-09-09" None eq_refl eq_refl eq_refl)
    as (_ & _ & _ & Hreport).
  destruct (Hreport eq_refl) as (-> & _).
  - intros income H. injection H as <-. reflexivity.
  - vm_compute. reflexivity.
Defined.

End ReportComposer.

(** ** Loading statements *)

Module LoadProps.

Import Py Pandas Analyzer Catalogue Layout Sample Extras.
Import PandasFacts RatioFacts ReportFacts.
Local Open Scope string_scope.

(** When the three sheets can be read, loading replaces the three
    statements by them, returns [True] and prints the success line; the
    ratio slot keeps whatever table it held. *)
Lemma load_replaces_statements
        (read_excel : reader) (self : FinancialStatementAnalyzer)
        (file_path : string) (income balance cash : DataFrame) :
  read_excel file_path "Income_Statement" = inl income ->
  read_excel file_path "Balance_Sheet" = inl balance ->
  read_excel file_path "Cash_Flow" = inl cash ->
  load_statements_from_excel read_excel self file_path =
    mkRun true
          {| income_statement := Some income;
             balance_sheet := Some balance;
             cash_flow := Some cash;
             ratios := ratios self |}
          ["Successfully loaded financial statements from " ++ file_path] [].
Proof.
  intros Hi Hb Hc. unfold load_statements_from_excel.
  now rewrite Hi, Hb, Hc.
Qed.

Lemma load_replaces_statements_witness :
  load_statements_from_excel workbook computed "statements.xlsx" =
    mkRun true
          {| income_statement := Some income_no_revenue;
             balance_sheet := Some balance_main;
             cash_flow := Some income_main;
             ratios := ratios computed |}
          ["Successfully loaded financial statements from statements.xlsx"] [].
Proof.
  apply (load_replaces_statements workbook computed "statements.xlsx");
    reflexivity.
Defined.

(** X1.  A load that returns [False] prints one error line with the text
    of the exception and may leave the analyzer half updated: the sheets
    read before the failing one have already replaced their statements,
    the failing one and those after it keep the old statements.  The ratio
    slot is untouched. *)
Theorem failed_load_is_partial
        (read_excel : reader) (self : FinancialStatementAnalyzer)
        (file_path : string) :
  returned (load_statements_from_excel read_excel self file_path) = false ->
  exists e,
    printed (load_statements_from_excel read_excel self file_path) =
      ["Error loading financial statements: " ++ e] /\
    ratios (after (load_statements_from_excel read_excel self file_path)) =
      ratios self /\
    ((read_excel file_path "Income_Statement" = inr e /\
      after (load_statements_from_excel read_excel self file_path) = self)
     \/
     (exists income,
         read_excel file_path "Income_Statement" = inl income /\
         read_excel file_path "Balance_Sheet" = inr e /\
         after (load_statements_from_excel read_excel self file_path) =
           set_income self income)
     \/
     (exists income balance,
         read_excel file_path "Income_Statement" = inl income /\
         read_excel file_path "Balance_Sheet" = inl balance /\
         read_excel file_path "Cash_Flow" = inr e /\
         after (load_statements_from_excel read_excel self file_path) =
           set_balance (set_income self income) balance)).
Proof.
  unfold load_statements_from_excel.
  destruct (read_excel file_path "Income_Statement") as [income|e] eqn:Hi.
  - destruct (read_excel file_path "Balance_Sheet") as [balance|e] eqn:Hb.
    + destruct (read_excel file_path "Cash_Flow") as [cash|e] eqn:Hc.
      * discriminate.
      * intros _. exists e. repeat split. right. right.
        exists income, balance. auto.
    + intros _. exists e. repeat split. right. left. exists income. auto.
  - intros _. exists e. repeat split. left. auto.
Qed.

(** The workbook has no balance sheet: the income statement is replaced,
    the balance sheet is the old one. *)
Lemma failed_load_is_partial_witness :
  after (load_statements_from_excel workbook_without_balance computed
                                    "statements.xlsx") =
    set_income computed income_no_revenue /\
  printed (load_statements_from_excel workbook_without_balance computed
                                      "statements.xlsx") =
    ["Error loading financial statements: Worksheet named 'Balance_Sheet' not found"].
Proof.
  destruct (failed_load_is_partial workbook_without_balance computed
              "statements.xlsx" eq_refl)
    as (e & Hp & _ & [[Hi _] | [(income & Hi & Hb & Ha) | (i & b & _ & Hb & _)]]).
  - discriminate Hi.
  - injection Hi as <-. split; [exact Ha | reflexivity].
  - discriminate Hb.
Defined.

(** X2.  Loading never resets the ratio slot, and a report requested after
    a successful load on an analyzer that already holds a ratio table is
    composed from that old table and the newly loaded income statement,
    without recomputing. *)
Theorem report_after_load_uses_old_ratios
        (read_excel : reader) (self : FinancialStatementAnalyzer)
        (file_path : string) (rt : DataFrame) (today : string)
        (path : option string) :
  ratios self = Some rt ->
  ratios (after (load_statements_from_excel read_excel self file_path)) =
    Some rt /\
  (returned (load_statements_from_excel read_excel self file_path) = true ->
   exists income,
     read_excel file_path "Income_Statement" = inl income /\
     returned (generate_summary_report
                 (after (load_statements_from_excel read_excel self file_path))
                 today path) =
       match report_lines rt (Some income) today with
       | Raise e => Raise e
       | Ok report => Ok (join LF report)
       end).
Proof.
  intro Hrt.
  assert (Hslot :
            ratios (after (load_statements_from_excel read_excel self
                                                      file_path)) = Some rt).
  { unfold load_statements_from_excel.
    destruct (read_excel file_path "Income_Statement");
      [destruct (read_excel file_path "Balance_Sheet");
       [destruct (read_excel file_path "Cash_Flow")|]|]; exact Hrt. }
  split; [exact Hslot|].
  intro Hok.
  rewrite (generate_with_ratios_returned _ rt today path Hslot).
  revert Hok. unfold load_statements_from_excel.
  destruct (read_excel file_path "Income_Statement") as [income|];
    [|discriminate].
  destruct (read_excel file_path "Balance_Sheet"); [|discriminate].
  destruct (read_excel file_path "Cash_Flow"); [|discriminate].
  intros _. exists income. split; reflexivity.
Qed.

(** The reloaded income statement has no "Revenue": the report raises. *)
Lemma report_after_load_uses_old_ratios_witness :
  returned (generate_summary_report
              (after (load_statements_from_excel workbook computed
                                                 "statements.xlsx"))
              "2025-09-09" None) = Raise (KeyError "Revenue").
Proof.
  destruct (proj2 (report_after_load_uses_old_ratios
                     workbook computed "statements.xlsx"
                     (ratio_table income_complete balance_main)
                     "2025-09-09" None eq_refl) eq_refl)
    as (income & Hi & Hreport).
  injection Hi as <-. rewrite Hreport. vm_compute. reflexivity.
Defined.

End LoadProps.

(** ** Plotting ratio trends *)

Module PlotProps.

Import Py Pandas Analyzer Catalogue Layout Sample Extras.
Import PandasFacts RatioFacts ReportFacts.
Local Open Scope string_scope.

Lemma upper_lower_char (a : ascii) :
  PyStr.upper_char (PyStr.lower_char a) = PyStr.upper_char a.
Proof.
  destruct a as [[] [] [] [] [] [] [] []]; reflexivity.
Qed.

Lemma capitalize_lower (c1 c2 : string) :
  PyStr.lower c1 = PyStr.lower c2 ->
  PyStr.capitalize c1 = PyStr.capitalize c2.
Proof.
  destruct c1 as [|a1 r1], c2 as [|a2 r2]; simpl; try discriminate;
    [reflexivity|].
  intro H. injection H as Ha Hr.
  rewrite <- (upper_lower_char a1), <- (upper_lower_char a2).
  now rewrite Ha, Hr.
Qed.

(** The loop draws one line per ratio of the category that the table
    has, and never fails. *)
Lemma plot_each_spec (rt : DataFrame) (names : list label) (fig : Figure) :
  plot_each rt names fig =
    Ok (fig ++ map (fun n => Plot (columns rt) (row_cells rt n) "o" n)
                   (filter (has_row rt) names))%list.
Proof.
  revert fig. induction names as [|n names IH]; intro fig; simpl.
  - now rewrite app_nil_r.
  - unfold row_cells, has_row, loc in *.
    destruct (find_row n (rows rt)) as [vs|] eqn:E; simpl.
    + rewrite IH, <- app_assoc. unfold row_cells, loc. now rewrite E.
    + apply IH.
Qed.

(** X3.  Asked for a plot while the ratio slot is empty, the analyzer
    returns no figure and prints that ratios must be computed first.
    Unlike the report, the plot does not run the ratio computation
    itself, even when it would succeed: the slot stays empty. *)
Theorem plot_without_ratios_draws_nothing
        (self : FinancialStatementAnalyzer) (ratio_category : string)
        (figsize : float * float) (save_path : option string) :
  ratios self = None ->
  plot_ratio_trends self ratio_category figsize save_path =
    mkRun (Ok None) self
          ["No ratios available. Call calculate_financial_ratios() first."]
          [] /\
  ratios (after (plot_ratio_trends self ratio_category figsize save_path)) =
    None.
Proof.
  intro H. unfold plot_ratio_trends. rewrite H. auto.
Qed.

Lemma plot_without_ratios_draws_nothing_witness :
  returned (plot_ratio_trends
              (analyzer (Some income_complete) (Some balance_main))
              "liquidity" (12, 6)%float None) = Ok None /\
  returned (calculate_financial_ratios
              (analyzer (Some income_complete) (Some balance_main))) <> None.
Proof.
  split.
  - now rewrite (proj1 (plot_without_ratios_draws_nothing
                          (analyzer (Some income_complete) (Some balance_main))
                          "liquidity" (12, 6)%float None eq_refl)).
  - vm_compute. discriminate.
Defined.

(** X4.  With ratios available, a category whose lower-cased name is not
    one of liquidity, profitability, leverage, efficiency gives no figure:
    the analyzer prints the list of valid categories, draws and saves
    nothing, and is unchanged. *)
Theorem plot_rejects_unknown_category
        (self : FinancialStatementAnalyzer) (rt : DataFrame)
        (ratio_category : string) (figsize : float * float)
        (save_path : option string) :
  ratios self = Some rt ->
  ~ In (PyStr.lower ratio_category)
       ["liquidity"; "profitability"; "leverage"; "efficiency"] ->
  plot_ratio_trends self ratio_category figsize save_path =
    mkRun (Ok None) self
          ["Invalid ratio category. Choose from: ['liquidity', 'profitability', 'leverage', 'efficiency']"]
          [].
Proof.
  intros Hrt Hnot. unfold plot_ratio_trends. rewrite Hrt.
  unfold ratio_categories. simpl category_get.
  destruct (String.eqb_spec (PyStr.lower ratio_category) "liquidity") as [E|_];
    [exfalso; apply Hnot; rewrite E; simpl; auto|].
  destruct (String.eqb_spec (PyStr.lower ratio_category) "profitability")
    as [E|_]; [exfalso; apply Hnot; rewrite E; simpl; auto|].
  destruct (String.eqb_spec (PyStr.lower ratio_category) "leverage") as [E|_];
    [exfalso; apply Hnot; rewrite E; simpl; auto|].
  destruct (String.eqb_spec (PyStr.lower ratio_category) "efficiency")
    as [E|_]; [exfalso; apply Hnot; rewrite E; simpl; auto|].
  reflexivity.
Qed.

Lemma plot_rejects_unknown_category_witness :
  returned (plot_ratio_trends computed "Solvency" (12, 6)%float
                              (Some "solvency.png")) = Ok None.
Proof.
  rewrite (plot_rejects_unknown_category
             computed (ratio_table income_complete balance_main)
             "Solvency" (12, 6)%float (Some "solvency.png") eq_refl).
  - reflexivity.
  - simpl. intros [H|[H|[H|[H|H]]]]; try discriminate H. exact H.
Defined.

(** The calls issued for a valid category, when each of them succeeds:
    one line per ratio of the category that is a row of the table, then
    title, labels, grid, legend, ticks and layout, and the save when a
    non-empty path is given. *)
Lemma plot_ratio_trends_calls
        (self : FinancialStatementAnalyzer) (rt : DataFrame)
        (ratio_category : string) (names : list label)
        (figsize : float * float) (save_path : option string) :
  ratios self = Some rt ->
  category_get (PyStr.lower ratio_category) ratio_categories = Some names ->
  plot_ratio_trends self ratio_category figsize save_path =
    mkRun
      (Ok (Some
             ([Subplots figsize]
                ++ map (fun n => Plot (columns rt) (row_cells rt n) "o" n)
                       (filter (has_row rt) names)
                ++ [ SetTitle (PyStr.capitalize ratio_category
                                 ++ " Ratios Trend")%string 14;
                     SetXLabel "Period" 12;
                     SetYLabel "Ratio Value" 12;
                     Grid "--" 0.7%float;
                     Legend;
                     XTicks 45;
                     TightLayout ]
                ++ match save_path with
                   | Some (String a p) => [SaveFig (String a p) 300 "tight"]
                   | _ => []
                   end)%list))
      self [] [].
Proof.
  intros Hrt Hcat. unfold plot_ratio_trends.
  rewrite Hrt, Hcat, plot_each_spec.
  destruct save_path as [[|a p]|]; simpl truthy; cbv iota;
    repeat rewrite <- app_assoc; simpl; try rewrite app_nil_r; reflexivity.
Qed.

Lemma and_then_do_call (call_error : call -> option foreign_error)
      (fig : Figure) (c : call) (A : Type) (k : Figure -> outcome A) :
  and_then (do_call call_error fig c) k =
    match call_error c with
    | Some e => Failed e
    | None => k (fig ++ [c])%list
    end.
Proof.
  unfold do_call. now destruct (call_error c).
Qed.

Lemma first_error_app (call_error : call -> option foreign_error)
      (l1 l2 : list call) :
  first_error call_error (l1 ++ l2) =
    match first_error call_error l1 with
    | Some e => Some e
    | None => first_error call_error l2
    end.
Proof.
  induction l1 as [|c l1 IH]; simpl; [reflexivity|].
  now destruct (call_error c).
Qed.

(** The loop draws the lines of the ratios the table has, up to the
    first call that raises; its lookups never raise. *)
Lemma plot_each_on_spec (call_error : call -> option foreign_error)
      (rt : DataFrame) (names : list label) (fig : Figure) :
  plot_each_on call_error rt names fig =
    match first_error call_error
                      (map (fun n => Plot (columns rt) (row_cells rt n) "o" n)
                           (filter (has_row rt) names)) with
    | Some e => Failed e
    | None =>
        Completed
          (Ok (fig ++ map (fun n => Plot (columns rt) (row_cells rt n) "o" n)
                          (filter (has_row rt) names))%list)
    end.
Proof.
  revert fig. induction names as [|n names IH]; intro fig.
  - simpl. now rewrite app_nil_r.
  - assert (Hn : (has_row rt n = false) \/
                 (has_row rt n = true /\
                  loc rt n = Ok (combine (columns rt)
                                         (match find_row n (rows rt) with
                                          | Some vs => vs | None => [] end)) /\
                  row_cells rt n =
                    map snd (combine (columns rt)
                                     (match find_row n (rows rt) with
                                      | Some vs => vs | None => [] end)))).
    { unfold has_row, row_cells, loc.
      destruct (find_row n (rows rt)); auto. }
    destruct Hn as [Hrow | (Hrow & Hloc & Hcells)].
    + cbn [plot_each_on filter]. rewrite Hrow. apply IH.
    + cbn [plot_each_on filter]. rewrite Hrow, Hloc.
      cbn [and_then map first_error]. rewrite and_then_do_call, Hcells.
      destruct (call_error _); [reflexivity|].
      rewrite IH, <- app_assoc. reflexivity.
Qed.

(** X5.  For a valid category the table lookups of the plot never raise:
    a ratio of the category missing from the table is skipped.  The calls
    it issues on matplotlib are, in order: the figure, one line per ratio
    of the category that is a row of the table (over all periods, with
    that row's cells), the title (the category name capitalized), the
    axis labels, the grid, the legend, the tick rotation, the layout and,
    exactly when a non-empty path is given, the save.  If one of these
    calls raises (an invalid figure size, an unwritable path) the first
    such exception leaves the method and no figure is returned;
    otherwise the figure of all these calls is returned.  The analyzer is
    unchanged and nothing is printed. *)
Theorem plot_draws_the_category
        (call_error : call -> option foreign_error)
        (self : FinancialStatementAnalyzer) (rt : DataFrame)
        (ratio_category : string) (names : list label)
        (figsize : float * float) (save_path : option string) :
  ratios self = Some rt ->
  category_get (PyStr.lower ratio_category) ratio_categories = Some names ->
  exists calls,
    calls =
      ([Subplots figsize]
         ++ map (fun n => Plot (columns rt) (row_cells rt n) "o" n)
                (filter (has_row rt) names)
         ++ [ SetTitle (PyStr.capitalize ratio_category
                          ++ " Ratios Trend")%string 14;
              SetXLabel "Period" 12;
              SetYLabel "Ratio Value" 12;
              Grid "--" 0.7%float;
              Legend;
              XTicks 45;
              TightLayout ]
         ++ match save_path with
            | Some (String a p) => [SaveFig (String a p) 300 "tight"]
            | _ => []
            end)%list /\
    plot_ratio_trends_on call_error self ratio_category figsize save_path =
      mkRun match first_error call_error calls with
            | Some e => Failed e
            | None => Completed (Ok (Some calls))
            end
            self [] [].
Proof.
  intros Hrt Hcat. eexists. split; [reflexivity|].
  unfold plot_ratio_trends_on. rewrite Hrt, Hcat. cbv zeta. f_equal.
  set (plots := map (fun n => Plot (columns rt) (row_cells rt n) "o" n)
                    (filter (has_row rt) names)).
  cbn [app first_error].
  rewrite and_then_do_call.
  destruct (call_error (Subplots figsize)); [reflexivity|].
  rewrite plot_each_on_spec. fold plots. rewrite first_error_app.
  destruct (first_error call_error plots); [reflexivity|].
  cbn [and_then app first_error].
  repeat (rewrite and_then_do_call;
          match goal with
          | |- context [call_error ?c] =>
              destruct (call_error c); [reflexivity|]
          end).
  destruct save_path as [[|a p]|]; cbn [truthy negb String.eqb first_error];
    try (rewrite and_then_do_call; destruct (call_error _); [reflexivity|]);
    cbn [and_then]; repeat rewrite <- app_assoc; reflexivity.
Qed.

(** The same plot saved to a writable path and into a directory that
    does not exist. *)
Lemma plot_draws_the_category_witness :
  returned (plot_ratio_trends_on missing_directory_calls computed "LIQUIDITY"
                                 (12, 6)%float (Some "liquidity.png")) =
    Completed
      (Ok (Some [ Subplots (12, 6)%float;
                  Plot quarters [1.25; 1.2682926829268293]%float "o"
                       "Current Ratio";
                  Plot quarters [1; 1]%float "o" "Quick Ratio";
                  SetTitle "Liquidity Ratios Trend" 14;
                  SetXLabel "Period" 12;
                  SetYLabel "Ratio Value" 12;
                  Grid "--" 0.7%float;
                  Legend;
                  XTicks 45;
                  TightLayout;
                  SaveFig "liquidity.png" 300 "tight" ])) /\
  returned (plot_ratio_trends_on missing_directory_calls computed "LIQUIDITY"
                                 (12, 6)%float
                                 (Some "/missing/liquidity.png")) =
    Failed (mkError "FileNotFoundError"
                    "[Errno 2] No such file or directory: '/missing/liquidity.png'").
Proof.
  split.
  - destruct (plot_draws_the_category
                missing_directory_calls computed
                (ratio_table income_complete balance_main)
                "LIQUIDITY" ["Current Ratio"; "Quick Ratio"]
                (12, 6)%float (Some "liquidity.png") eq_refl eq_refl)
      as (calls & -> & ->).
    vm_compute. reflexivity.
  - destruct (plot_draws_the_category
                missing_directory_calls computed
                (ratio_table income_complete balance_main)
                "LIQUIDITY" ["Current Ratio"; "Quick Ratio"]
                (12, 6)%float (Some "/missing/liquidity.png") eq_refl eq_refl)
      as (calls & -> & ->).
    vm_compute. reflexivity.
Defined.

(** X6.  The category is matched without regard to case, and the title
    does not depend on the case either: two category names with the same
    lower-cased form give the same result. *)
Theorem plot_ignores_case
        (self : FinancialStatementAnalyzer) (c1 c2 : string)
        (figsize : float * float) (save_path : option string) :
  PyStr.lower c1 = PyStr.lower c2 ->
  plot_ratio_trends self c1 figsize save_path =
    plot_ratio_trends self c2 figsize save_path.
Proof.
  intro H. unfold plot_ratio_trends.
  now rewrite H, (capitalize_lower c1 c2 H).
Qed.

Lemma plot_ignores_case_witness :
  plot_ratio_trends computed "LEVERAGE" (12, 6)%float None =
    plot_ratio_trends computed "leverage" (12, 6)%float None.
Proof.
  apply plot_ignores_case. reflexivity.
Defined.

Lemma plotted_labels_lines (x : list label) (y : label -> list float)
      (names : list label) :
  plotted_labels (map (fun n => Plot x (y n) "o" n) names) = names.
Proof.
  unfold plotted_labels.
  induction names as [|n names IH]; [reflexivity|].
  cbn [map flat_map app]. now rewrite IH.
Qed.

(** The table of a successful computation has the ten rows. *)
Lemma computed_table_has_rows (income balance : DataFrame) (name : label) :
  In name ratio_names -> has_row (ratio_table income balance) name = true.
Proof.
  unfold ratio_names. simpl.
  intro H. repeat (destruct H as [<-|H]; [reflexivity|]). contradiction.
Qed.

(** X7.  After a successful ratio computation the four categories together
    draw every one of the ten ratios exactly once: the legend labels of
    the four plots, taken together, are a rearrangement of the ten ratio
    names. *)
Theorem categories_cover_every_ratio_once
        (self0 self : FinancialStatementAnalyzer) (rt : DataFrame)
        (figsize : float * float) (save_path : option string) :
  returned (calculate_financial_ratios self0) = Some rt ->
  ratios self = Some rt ->
  Permutation
    (flat_map (fun category =>
                 plotted_labels
                   (figure_of (plot_ratio_trends self category figsize
                                                 save_path)))
              (map fst ratio_categories))
    ratio_names.
Proof.
  intros H0 Hrt.
  destruct (calculate_returned_some self0 rt H0)
    as (income & balance & _ & _ & _ & -> & _).
  assert (Hlabels :
            forall category names,
              category_get (PyStr.lower category) ratio_categories =
                Some names ->
              (forall n, In n names -> In n ratio_names) ->
              plotted_labels
                (figure_of (plot_ratio_trends self category figsize
                                              save_path)) = names).
  { intros category names Hcat Hin.
    rewrite (plot_ratio_trends_calls self (ratio_table income balance)
               category names figsize save_path Hrt Hcat).
    unfold figure_of, plotted_labels. cbn [returned].
    rewrite !flat_map_app. cbn [flat_map app].
    assert (Hf : filter (has_row (ratio_table income balance)) names = names).
    { clear Hcat. induction names as [|n names IH]; [reflexivity|].
      simpl. rewrite computed_table_has_rows by (apply Hin; simpl; auto).
      f_equal. apply IH. intros m Hm. apply Hin. simpl. auto. }
    rewrite Hf.
    assert (Hs : match save_path with
                 | Some (String a p) => [SaveFig (String a p) 300 "tight"]
                 | _ => []
                 end = [] \/
                 exists q, match save_path with
                           | Some (String a p) =>
                               [SaveFig (String a p) 300 "tight"]
                           | _ => []
                           end = [SaveFig q 300 "tight"]).
    { destruct save_path as [[|a p]|]; eauto. }
    destruct Hs as [-> | [q ->]]; cbn [flat_map app]; rewrite app_nil_r;
      apply (plotted_labels_lines
               (columns (ratio_table income balance))
               (row_cells (ratio_table income balance))). }
  cbn [ratio_categories map fst flat_map].
  rewrite (Hlabels "liquidity" ["Current Ratio"; "Quick Ratio"] eq_refl)
    by (simpl; tauto).
  rewrite (Hlabels "profitability"
             ["Gross Margin"; "Operating Margin"; "Net Margin";
              "Return on Assets"; "Return on Equity"] eq_refl)
    by (simpl; tauto).
  rewrite (Hlabels "leverage" ["Debt-to-Equity"] eq_refl) by (simpl; tauto).
  rewrite (Hlabels "efficiency" ["Inventory Turnover"; "Asset Turnover"]
             eq_refl) by (simpl; tauto).
  simpl. unfold ratio_names.
  do 2 apply perm_skip.
  apply Permutation_sym.
  apply (Permutation_middle
           ["Gross Margin"; "Operating Margin"; "Net Margin";
            "Return on Assets"; "Return on Equity"]
           ["Inventory Turnover"; "Asset Turnover"] "Debt-to-Equity").
Qed.

Lemma categories_cover_every_ratio_once_witness :
  Permutation
    (flat_map (fun category =>
                 plotted_labels
                   (figure_of (plot_ratio_trends computed category
                                                 (12, 6)%float None)))
              (map fst ratio_categories))
    ratio_names.
Proof.
  exact (categories_cover_every_ratio_once
           (analyzer (Some income_complete) (Some balance_main)) computed
           (ratio_table income_complete balance_main) (12, 6)%float None
           eq_refl eq_refl).
Defined.

End PlotProps.

(** ** More on the ratio computation *)

Module EngineProps.

Import Py Pandas Analyzer Catalogue Layout Sample Extras.
Import PandasFacts RatioFacts ReportFacts FloatFacts.
Local Open Scope string_scope.

Lemma prim_nan (z : float) : Prim2SF z = S754_nan -> z = nan.
Proof.
  intro H. rewrite <- (SF2Prim_Prim2SF z), H. reflexivity.
Qed.

(** NaN operands give NaN. *)
Lemma div_nan_l (y : float) : (nan / y)%float = nan.
Proof.
  apply prim_nan. rewrite div_spec. change (Prim2SF nan) with S754_nan.
  now destruct (Prim2SF y).
Qed.

Lemma div_nan_r (x : float) : (x / nan)%float = nan.
Proof.
  apply prim_nan. rewrite div_spec. change (Prim2SF nan) with S754_nan.
  now destruct (Prim2SF x).
Qed.

Lemma sub_nan_l (y : float) : (nan - y)%float = nan.
Proof.
  apply prim_nan. rewrite sub_spec. change (Prim2SF nan) with S754_nan.
  now destruct (Prim2SF y).
Qed.

Lemma sub_nan_r (x : float) : (x - nan)%float = nan.
Proof.
  apply prim_nan. rewrite sub_spec. change (Prim2SF nan) with S754_nan.
  now destruct (Prim2SF x).
Qed.

Lemma series_get_combine_out (l : list label) (vs : list float) (p : label) :
  ~ In p l -> series_get (combine l vs) p = None.
Proof.
  revert vs. induction l as [|q l IH]; intros [|v vs] Hout; simpl;
    try reflexivity.
  destruct (String.eqb_spec p q) as [->|_].
  - exfalso. apply Hout. simpl. auto.
  - apply IH. intro H. apply Hout. simpl. auto.
Qed.

(** An aligned operation with a side that is absent or NaN at a label is
    absent or NaN there. *)
Lemma series_op_poisoned (op : float -> float -> float) (a b : Series)
      (p : label) :
  (forall y, op nan y = nan) -> (forall x, op x nan = nan) ->
  (series_get a p = None \/ series_get a p = Some nan) \/
  (series_get b p = None \/ series_get b p = Some nan) ->
  series_get (series_op op a b) p = None \/
  series_get (series_op op a b) p = Some nan.
Proof.
  intros Hl Hr H. rewrite series_get_op.
  destruct (series_get a p) as [x|], (series_get b p) as [y|]; auto.
  destruct H as [[H|H]|[H|H]]; try discriminate;
    injection H as ->; right; f_equal; auto.
Qed.

Lemma series_of_without_balance_period
      (income balance : DataFrame) (f : formula) (p : label) :
  reads_balance f = true -> ~ In p (columns balance) ->
  series_get (series_of income balance f) p = None \/
  series_get (series_of income balance f) p = Some nan.
Proof.
  intros Hf Hout.
  induction f as [[|] n|a IHa b IHb|a IHa b IHb]; simpl in *.
  - discriminate.
  - left. unfold row_series.
    destruct (find_row n (rows balance)); [|reflexivity].
    now apply series_get_combine_out.
  - apply series_op_poisoned; [exact div_nan_l | exact div_nan_r |].
    apply orb_true_iff in Hf. destruct Hf; auto.
  - apply series_op_poisoned; [exact sub_nan_l | exact sub_nan_r |].
    apply orb_true_iff in Hf. destruct Hf; auto.
Qed.

(** X8.  The engine does not check that the two statements cover the same
    periods.  For statements with unique labels and all required rows
    present, a period of the income
    statement that the balance sheet lacks does not make the computation
    fail: every ratio whose formula reads the balance sheet is NaN in that
    period. *)
Theorem period_missing_from_balance_gives_nan
        (self : FinancialStatementAnalyzer) (income balance : DataFrame)
        (name : label) (f : formula) (p : label) :
  income_statement self = Some income ->
  balance_sheet self = Some balance ->
  unique_labels income = true ->
  unique_labels balance = true ->
  complete income balance ->
  In (name, f) ratio_formula ->
  reads_balance f = true ->
  In p (columns income) ->
  ~ In p (columns balance) ->
  exists rt,
    calculate_financial_ratios self =
      mkRun (Some rt) (set_ratios self rt) [] [] /\
    loc_at rt name p = Ok nan.
Proof.
  intros Hi Hb _ _ Hc Hin Hf Hp Hout.
  exists (ratio_table income balance).
  split; [now apply calculate_complete|].
  rewrite (ratio_table_cell income balance name f p Hin Hp).
  destruct (series_of_without_balance_period income balance f p Hf Hout)
    as [-> | ->]; reflexivity.
Qed.

Lemma period_missing_from_balance_gives_nan_witness :
  exists rt,
    returned (calculate_financial_ratios
                (analyzer (Some income_complete)
                          (Some (first_quarter balance_main)))) = Some rt /\
    loc_at rt "Return on Assets" "2023-Q2" = Ok nan.
Proof.
  destruct (period_missing_from_balance_gives_nan
              (analyzer (Some income_complete)
                        (Some (first_quarter balance_main)))
              income_complete (first_quarter balance_main)
              "Return on Assets"
              (Div (Row Income "Net Income") (Row Balance "Total Assets"))
              "2023-Q2" eq_refl eq_refl eq_refl eq_refl)
    as (rt & Hrun & Hcell).
  - intros r Hr. unfold required_rows in Hr. simpl in Hr.
    repeat (destruct Hr as [<-|Hr]; [reflexivity|]). contradiction.
  - simpl. tauto.
  - reflexivity.
  - simpl. tauto.
  - simpl. intros [H|H]; [discriminate H | exact H].
  - exists rt. rewrite Hrun. auto.
Defined.

(** X9.  Whatever the shape of the statements it was computed from, the
    table returned by a successful computation is well formed: each of
    its ten rows has one cell per period of the income statement, and
    every ratio can be read at every period. *)
Theorem computed_table_is_filled
        (self : FinancialStatementAnalyzer) (rt : DataFrame) :
  returned (calculate_financial_ratios self) = Some rt ->
  well_formed rt = true /\
  (forall name, In name ratio_names ->
                length (row_cells rt name) = length (columns rt)) /\
  (forall name p, In name ratio_names -> In p (columns rt) ->
                  exists v, loc_at rt name p = Ok v).
Proof.
  intro H.
  destruct (calculate_returned_some self rt H)
    as (income & balance & _ & _ & _ & -> & _).
  split; [|split].
  - unfold well_formed, ratio_table, reindex. simpl.
    rewrite !length_map, Nat.eqb_refl. reflexivity.
  - intros name Hn. unfold ratio_names in Hn. simpl in Hn.
    repeat (destruct Hn as [<-|Hn];
            [unfold row_cells, loc, ratio_table, reindex; simpl;
             rewrite length_map, length_combine, length_map;
             apply Nat.min_id|]).
    contradiction.
  - intros name p Hn Hp.
    exact (ratio_table_readable income balance name p Hn Hp).
Qed.

Lemma computed_table_is_filled_witness :
  well_formed (ratio_table income_complete (first_quarter balance_main)) = true.
Proof.
  exact (proj1 (computed_table_is_filled
                  (analyzer (Some income_complete)
                            (Some (first_quarter balance_main)))
                  (ratio_table income_complete (first_quarter balance_main))
                  eq_refl)).
Defined.

(** X10.  Computing the ratios a second time, right after a first
    computation, changes nothing: it returns and prints the same and
    leaves the analyzer as the first computation left it. *)
Theorem recomputation_changes_nothing (self : FinancialStatementAnalyzer) :
  calculate_financial_ratios (after (calculate_financial_ratios self)) =
    calculate_financial_ratios self.
Proof.
  unfold calculate_financial_ratios.
  destruct (income_statement self) as [income|] eqn:Hi;
    [destruct (balance_sheet self) as [balance|] eqn:Hb|].
  - destruct (ratio_rows income balance) eqn:Hr; simpl.
    + now rewrite Hi, Hb, Hr.
    + now rewrite Hi, Hb, Hr.
  - simpl. now rewrite Hi, Hb.
  - simpl. now rewrite Hi.
Qed.

Lemma value_at_income_only (income balance : DataFrame) (f : formula)
      (p : label) :
  well_formed income = true ->
  reads_balance f = false ->
  (forall r, In r (rows_of f) -> present income balance r = true) ->
  In p (columns income) ->
  exists v, value_at income balance f p = Some v.
Proof.
  intros Wi Hf Hrows Hp.
  induction f as [[|] n|a IHa b IHb|a IHa b IHb]; simpl in *.
  - destruct (loc_at_total income n p) as [v ->]; eauto.
    apply (Hrows (Income, n)). auto.
  - discriminate.
  - apply orb_false_iff in Hf. destruct Hf as [Ha Hb].
    destruct IHa as [x ->]; [assumption | auto using in_or_app |].
    destruct IHb as [y ->]; [assumption | auto using in_or_app |]. eauto.
  - apply orb_false_iff in Hf. destruct Hf as [Ha Hb].
    destruct IHa as [x ->]; [assumption | auto using in_or_app |].
    destruct IHb as [y ->]; [assumption | auto using in_or_app |]. eauto.
Qed.

(** X16.  The ratios that read the income statement only (the three
    margins) do not depend on how the balance sheet is laid out: for
    statements with unique labels, all required rows present and a
    well-formed income statement, each of
    them is its formula on that period's income cells in every period,
    even for periods the balance sheet lacks. *)
Theorem income_ratios_ignore_balance_periods
        (self : FinancialStatementAnalyzer) (income balance : DataFrame)
        (name : label) (f : formula) (p : label) :
  income_statement self = Some income ->
  balance_sheet self = Some balance ->
  unique_labels income = true ->
  unique_labels balance = true ->
  complete income balance ->
  well_formed income = true ->
  In (name, f) ratio_formula ->
  reads_balance f = false ->
  In p (columns income) ->
  exists rt v,
    returned (calculate_financial_ratios self) = Some rt /\
    value_at income balance f p = Some v /\
    loc_at rt name p = Ok v.
Proof.
  intros Hi Hb _ _ Hc Hwf Hin Hf Hp.
  destruct (value_at_income_only income balance f p Hwf Hf) as [v Hv];
    [|assumption|].
  { intros r Hr. apply Hc. eapply formula_rows_required; eauto. }
  exists (ratio_table income balance), v.
  rewrite (calculate_complete self income balance Hi Hb Hc).
  split; [reflexivity|]. split; [assumption|].
  now apply (ratio_table_value income balance name f).
Qed.

Lemma income_ratios_ignore_balance_periods_witness :
  exists rt,
    returned (calculate_financial_ratios
                (analyzer (Some income_complete)
                          (Some (first_quarter balance_main)))) = Some rt /\
    loc_at rt "Net Margin" "2023-Q2" = Ok (170000 / 1050000)%float.
Proof.
  destruct (income_ratios_ignore_balance_periods
              (analyzer (Some income_complete)
                        (Some (first_quarter balance_main)))
              income_complete (first_quarter balance_main)
              "Net Margin"
              (Div (Row Income "Net Income") (Row Income "Revenue"))
              "2023-Q2" eq_refl eq_refl eq_refl eq_refl)
    as (rt & v & Hrun & Hv & Hcell).
  - intros r Hr. unfold required_rows in Hr. simpl in Hr.
    repeat (destruct Hr as [<-|Hr]; [reflexivity|]). contradiction.
  - reflexivity.
  - simpl. tauto.
  - reflexivity.
  - simpl. tauto.
  - exists rt. split; [assumption|].
    vm_compute in Hv. injection Hv as <-. exact Hcell.
Defined.

End EngineProps.

(** ** More on the summary report, and [main] *)

Module ReportProps.

Import Py Pandas Analyzer Catalogue Layout Sample Extras.
Import PandasFacts RatioFacts ReportFacts.
Local Open Scope string_scope.




(** X13.  A report request leaves the three statements as they are, and
    touches the ratio slot only when it is empty, in which case the slot
    receives what the ratio computation returns. *)
Theorem report_only_fills_empty_slot
        (self : FinancialStatementAnalyzer) (today : string)
        (path : option string) :
  income_statement (after (generate_summary_report self today path)) =
    income_statement self /\
  balance_sheet (after (generate_summary_report self today path)) =
    balance_sheet self /\
  cash_flow (after (generate_summary_report self today path)) =
    cash_flow self /\
  ratios (after (generate_summary_report self today path)) =
    match ratios self with
    | Some rt => Some rt
    | None => returned (calculate_financial_ratios self)
    end.
Proof.
  unfold generate_summary_report.
  destruct (ratios self) as [rt|] eqn:Hrt; cbv zeta; cbn [after].
  - rewrite Hrt.
    destruct (report_lines rt (income_statement self) today);
      [destruct (truthy path)|]; simpl; auto.
  - unfold calculate_financial_ratios.
    destruct (income_statement self) as [income|] eqn:Hi;
      [destruct (balance_sheet self) as [balance|] eqn:Hb|].
    + destruct (ratio_rows income balance) as [rt|e]; cbn [after ratios].
      * cbn [set_ratios ratios income_statement].
        destruct (report_lines rt _ today); [destruct (truthy path)|];
          simpl; auto.
      * rewrite Hrt. simpl. auto.
    + cbn [after]. rewrite Hrt. simpl. auto.
    + cbn [after]. rewrite Hrt. simpl. auto.
Qed.

(** X14.  Asking for the same report again gives the same outcome: the
    second request returns, prints and writes what the first did and
    leaves the analyzer as the first left it. *)
Theorem second_report_repeats_first
        (self : FinancialStatementAnalyzer) (today : string)
        (path : option string) :
  returned (generate_summary_report
              (after (generate_summary_report self today path)) today path) =
    returned (generate_summary_report self today path) /\
  after (generate_summary_report
           (after (generate_summary_report self today path)) today path) =
    after (generate_summary_report self today path) /\
  written (generate_summary_report
             (after (generate_summary_report self today path)) today path) =
    written (generate_summary_report self today path).
Proof.
  destruct (ratios self) as [rt|] eqn:Hrt.
  - assert (Ha : after (generate_summary_report self today path) = self).
    { rewrite (generate_with_ratios self rt today path Hrt).
      destruct (report_lines rt (income_statement self) today);
        [destruct (truthy path)|]; reflexivity. }
    rewrite Ha. auto.
  - destruct (returned (calculate_financial_ratios self)) as [rt|] eqn:Hc.
    + destruct (calculate_returned_some self rt Hc)
        as (income & balance & _ & _ & _ & _ & Hafter).
      assert (Hg : generate_summary_report self today path =
                   generate_summary_report (set_ratios self rt) today path).
      { rewrite (generate_with_ratios (set_ratios self rt) rt today path
                   eq_refl).
        unfold generate_summary_report. rewrite Hrt, Hafter.
        cbn [after set_ratios ratios income_statement].
        assert (Hp : printed (calculate_financial_ratios self) = []).
        { revert Hc. unfold calculate_financial_ratios.
          destruct (income_statement self), (balance_sheet self);
            try discriminate.
          destruct (ratio_rows _ _); [reflexivity | discriminate]. }
        rewrite Hp. reflexivity. }
      assert (Ha : after (generate_summary_report (set_ratios self rt)
                                                  today path) =
                   set_ratios self rt).
      { rewrite (generate_with_ratios (set_ratios self rt) rt today path
                   eq_refl).
        destruct (report_lines rt _ today); [destruct (truthy path)|];
          reflexivity. }
      rewrite Hg, Ha. auto.
    + assert (Ha : after (generate_summary_report self today path) = self).
      { unfold generate_summary_report. rewrite Hrt.
        rewrite (calculate_returned_none self Hc). now rewrite Hrt. }
      rewrite Ha. auto.
Qed.

(** X15.  [main] builds an income statement without an "Operating Income"
    row, so its ratio computation fails: between its banner and its
    closing notes the script prints
    "Error calculating ratios: 'Operating Income'", and its [ratios] is
    [None]. *)
Theorem main_ratio_computation_fails :
  main =
    ([ "Financial Statement Analyzer";
       "---------------------------";
       "Error calculating ratios: 'Operating Income'";
       LF ++ "This script demonstrates financial statement analysis:";
       "1. Loading financial statements from Excel files";
       "2. Calculating key financial ratios";
       "3. Plotting ratio trends over time";
       "4. Generating a summary report with insights";
       LF ++ "To use this script with your own data, provide file paths to your financial statements." ],
     None).
Proof.
  vm_compute. reflexivity.
Qed.

End ReportProps.
